(** * The staged build/test/deploy engine of [ci_automation.py]

    A shallow embedding of [CIPipeline]: the command executor
    ([run_command]), the stage runner ([run_stage]), the orchestrator
    ([run_pipeline]) and the report generator ([generate_report],
    [format_stage_results]).

    Modelling conventions.
    - A Python [str] is a [string]; one [ascii] stands for one character,
      so [len] is [String.length] and the slice [s[:n]] is
      [substring 0 n s].
    - A Python [float] is a binary64 [float] of [PrimFloat]; [int] is [Z];
      the result of [len] is a [nat]. The built-in [sum] adds floats
      plainly up to CPython 3.11 and with a compensation from 3.12 on;
      the class [Interpreter] says which.
    - The operating system (clock, process creation, pipes, the file
      system) is an interface, the class [OS]; code that talks to it lives
      in the monad [M], which threads the state of the world and carries
      the raised exception, if any.
    - Calls to [self.logger] are left out: the logging module swallows the
      failures of its handlers and returns nothing the code reads.
    - Only exceptions deriving from [Exception] are modelled; interrupts
      such as [KeyboardInterrupt] are outside the model. *)

From Stdlib Require Import ZArith List String Ascii Bool Arith Lia.
From Stdlib Require Import Uint63 PrimFloat DecimalString.
Import ListNotations.

Open Scope string_scope.
Open Scope list_scope.

(** ** Data model *)

(** [class PipelineStatus(Enum)]. *)
Inductive PipelineStatus : Type :=
  | PENDING
  | RUNNING
  | SUCCESS
  | FAILED
  | CANCELLED.

(** The [.value] of a member of the enumeration. *)
Definition PipelineStatus_value (s : PipelineStatus) : string :=
  match s with
  | PENDING => "pending"
  | RUNNING => "running"
  | SUCCESS => "success"
  | FAILED => "failed"
  | CANCELLED => "cancelled"
  end.

(** [==] on members of the enumeration. *)
Definition PipelineStatus_eqb (a b : PipelineStatus) : bool :=
  match a, b with
  | PENDING, PENDING
  | RUNNING, RUNNING
  | SUCCESS, SUCCESS
  | FAILED, FAILED
  | CANCELLED, CANCELLED => true
  | _, _ => false
  end.

(** [@dataclass class PipelineResult]; [error] is [Optional[str]]. *)
Record PipelineResult : Type := mkPipelineResult {
  status : PipelineStatus;
  duration : float;
  output : string;
  error : option string;
  exit_code : Z
}.

(** ** Python built-ins used by the report generator *)

(** The loop of [sum] over floats in CPython up to 3.11: [acc] is the
    running total, to which the items are added from left to right. *)
Fixpoint py_sum_from (acc : float) (xs : list float) : float :=
  match xs with
  | [] => acc
  | x :: rest => py_sum_from (PrimFloat.add acc x) rest
  end.

(** The loop of [sum] over floats in CPython from 3.12 on: [f_result] is
    the running total and [c] the compensation, which gathers what each
    addition rounded away and is added at the end when it is finite and
    not zero. *)
Fixpoint py_sum_compensated_from (f_result c : float) (xs : list float)
  : float :=
  match xs with
  | [] =>
      if negb (PrimFloat.is_zero c) && PrimFloat.is_finite c
      then PrimFloat.add f_result c
      else f_result
  | x :: rest =>
      let t := PrimFloat.add f_result x in
      let c :=
        if PrimFloat.leb (PrimFloat.abs x) (PrimFloat.abs f_result)
        then PrimFloat.add c (PrimFloat.add (PrimFloat.sub f_result t) x)
        else PrimFloat.add c (PrimFloat.add (PrimFloat.sub x t) f_result) in
      py_sum_compensated_from t c rest
  end.

(** What the code depends on in the interpreter that runs it: whether
    [sum] adds floats with a compensation (CPython 3.12 and later) or
    plainly (CPython up to 3.11). *)
Class Interpreter : Type := {
  compensated_sum : bool
}.

Definition cpython_311 : Interpreter := {| compensated_sum := false |}.

Definition cpython_312 : Interpreter := {| compensated_sum := true |}.

(** [sum(xs)] on floats. The start value is the integer [0]: an empty
    list gives it back, read here as the float zero; otherwise the first
    item is added to it, and the loop over floats takes the rest. *)
Definition py_sum {py : Interpreter} (xs : list float) : float :=
  match xs with
  | [] => 0%float
  | x :: rest =>
      let result := PrimFloat.add 0%float x in
      if compensated_sum
      then py_sum_compensated_from result 0%float rest
      else py_sum_from result rest
  end.

(** [enumerate(xs)]: each element paired with its index, from 0. *)
Definition enumerate {A : Type} (xs : list A) : list (nat * A) :=
  combine (seq 0 (List.length xs)) xs.

(** Truth value of an [Optional[str]]: [None] and the empty string are
    false. *)
Definition truthy (e : option string) : bool :=
  match e with
  | None => false
  | Some s => negb (String.eqb s "")
  end.

(** [str(n)] and [f"{n}"] for an [int]. *)
Definition py_str_int (n : Z) : string :=
  NilZero.string_of_int (Z.to_int n).

(** The one-character string ["\n"]. *)
Definition newline : string := String (ascii_of_nat 10) EmptyString.

(** ** Report generation *)

(** One entry of a formatted stage: the dictionary built in the loop of
    [format_stage_results]. *)
Record FormattedStep : Type := mkFormattedStep {
  fs_step : nat;
  fs_status : string;
  fs_duration : float;
  fs_exit_code : Z;
  fs_output : string;
  fs_error : option string
}.

(** [result.output[:500] + "..." if len(result.output) > 500
     else result.output]. *)
Definition format_output (out : string) : string :=
  if (500 <? String.length out)%nat
  then (substring 0 500 out ++ "...")%string
  else out.

(** [result.error[:500] + "..." if result.error and len(result.error) > 500
     else result.error]; the [and] does not read the length of [None]. *)
Definition format_error (err : option string) : option string :=
  match err with
  | Some e =>
      if truthy err && (500 <? String.length e)%nat
      then Some (substring 0 500 e ++ "...")%string
      else err
  | None => err
  end.

Definition format_stage_results (results : list PipelineResult)
  : list FormattedStep :=
  map (fun '(i, result) =>
         {| fs_step := i + 1;
            fs_status := PipelineStatus_value (status result);
            fs_duration := duration result;
            fs_exit_code := exit_code result;
            fs_output := format_output (output result);
            fs_error := format_error (error result) |})
      (enumerate results).

(** The ["summary"] dictionary of a report. *)
Record Summary : Type := mkSummary {
  total_stages : nat;
  successful_stages : nat;
  failed_stages : nat;
  total_duration : float;
  summary_status : string
}.

(** The ["stages"] dictionary of a report. *)
Record Stages : Type := mkStages {
  stages_build : list FormattedStep;
  stages_test : list FormattedStep;
  stages_deploy : list FormattedStep
}.

Record Report : Type := mkReport {
  project : string;
  timestamp : string;
  summary : Summary;
  stages : Stages
}.

(** [generate_report]. [project_name] is [self.config["project_name"]] and
    [now] is what [time.strftime("%Y-%m-%d %H:%M:%S")] returns at the
    call. *)
Definition generate_report {py : Interpreter} (project_name now : string)
    (build_results test_results deploy_results : list PipelineResult)
  : Report :=
  let all_results := build_results ++ test_results ++ deploy_results in
  let total_duration := py_sum (map duration all_results) in
  let failed_stages :=
    filter (fun r => PipelineStatus_eqb (status r) FAILED) all_results in
  let successful_stages :=
    filter (fun r => PipelineStatus_eqb (status r) SUCCESS) all_results in
  {| project := project_name;
     timestamp := now;
     summary :=
       {| total_stages := List.length all_results;
          successful_stages := List.length successful_stages;
          failed_stages := List.length failed_stages;
          total_duration := total_duration;
          summary_status :=
            match failed_stages with
            | [] => "SUCCESS"
            | _ :: _ => "FAILED"
            end |};
     stages :=
       {| stages_build := format_stage_results build_results;
          stages_test := format_stage_results test_results;
          stages_deploy := format_stage_results deploy_results |} |}.

(** ** The operating system and the monad of the executor *)

(** The classes of exception the code tells apart:
    [subprocess.TimeoutExpired], [IOError] (that is [OSError]) and any
    other class deriving from [Exception]. *)
Inductive exn_class : Type :=
  | TimeoutExpired
  | IOError
  | OtherException.

(** A raised exception: its class and what [str(e)] returns. *)
Record exn : Type := mkExn {
  exn_class_of : exn_class;
  exn_str : string
}.

Definition is_TimeoutExpired (e : exn) : bool :=
  match exn_class_of e with TimeoutExpired => true | _ => false end.

Definition is_IOError (e : exn) : bool :=
  match exn_class_of e with IOError => true | _ => false end.

(** Every modelled exception derives from [Exception]. *)
Definition is_Exception (e : exn) : bool := true.

(** What the code asks of its host. A call takes the state of the world
    and returns the next one; [inl e] is the call raising [e].
    - [time_time]: [time.time()];
    - [time_strftime]: [time.strftime("%Y-%m-%d %H:%M:%S")];
    - [Popen command cwd]: [subprocess.Popen(command, shell=True,
      stdout=PIPE, stderr=PIPE, text=True, cwd=cwd)];
    - [communicate p timeout]: [p.communicate(timeout=timeout)], and
      [p.communicate()] when [timeout] is [None];
    - [returncode p]: [p.returncode] after [communicate] returned;
    - [kill p]: [p.kill()];
    - [json_dump_file filename report]: [with open(filename, 'w') as f:
      json.dump(report, f, indent=2)]. *)
Class OS : Type := {
  World : Type;
  Process : Type;
  time_time : World -> float * World;
  time_strftime : World -> string * World;
  Popen : string -> option string -> World -> (exn + Process) * World;
  communicate :
    Process -> option Z -> World -> (exn + string * string) * World;
  returncode : Process -> World -> Z * World;
  kill : Process -> World -> (exn + unit) * World;
  json_dump_file : string -> Report -> World -> (exn + unit) * World
}.

(** A command entry of the configuration: a JSON object read with
    [.get(key, default)], so each of its keys may be missing. The values
    have the types [run_command] declares for them. *)
Record CmdConfig : Type := mkCmdConfig {
  cfg_name : option string;
  cfg_command : option string;
  cfg_timeout : option Z
}.

(** [d.get(key, default)] on a key that may be missing. *)
Definition dict_get {A : Type} (v : option A) (default : A) : A :=
  match v with
  | Some a => a
  | None => default
  end.

(** The keys of [self.config] the pipeline reads. *)
Record Config : Type := mkConfig {
  project_name : string;
  build_commands : list CmdConfig;
  test_commands : list CmdConfig;
  deployment_commands : list CmdConfig
}.

Section Executor.

Context {os : OS} {py : Interpreter}.

(** A computation on the world that returns or raises. *)
Definition M (A : Type) : Type := World -> (exn + A) * World.

Definition ret {A : Type} (a : A) : M A := fun w => (inr a, w).

Definition bind {A B : Type} (m : M A) (k : A -> M B) : M B :=
  fun w =>
    match m w with
    | (inl e, w') => (inl e, w')
    | (inr a, w') => k a w'
    end.

(** A call of the host that cannot raise. *)
Definition lift {A : Type} (f : World -> A * World) : M A :=
  fun w => let (a, w') := f w in (inr a, w').

(** [try: body except C as e: handler e], where [catches e] tells whether
    [e] is an instance of [C]. *)
Definition try_except {A : Type}
    (body : M A) (catches : exn -> bool) (handler : exn -> M A) : M A :=
  fun w =>
    match body w with
    | (inl e, w') => if catches e then handler e w' else (inl e, w')
    | (inr a, w') => (inr a, w')
    end.

Notation "x <- m ;; k" := (bind m (fun x => k))
  (at level 61, m at next level, right associativity).
Notation "' pat <- m ;; k" :=
  (bind m (fun x => match x with pat => k end))
  (at level 61, pat pattern, m at next level, right associativity).
Notation "m ;;; k" := (bind m (fun _ => k))
  (at level 61, right associativity).

(** [CIPipeline.run_command]. *)
Definition run_command (command : string) (timeout : Z)
    (cwd : option string) : M PipelineResult :=
  start_time <- lift time_time ;;
  try_except
    (process <- Popen command cwd ;;
     try_except
       ('(stdout, stderr) <- communicate process (Some timeout) ;;
        exit_code <- lift (returncode process) ;;
        now <- lift time_time ;;
        let duration := PrimFloat.sub now start_time in
        let status := if (exit_code =? 0)%Z then SUCCESS else FAILED in
        ret {| status := status;
               duration := duration;
               output := stdout;
               error := Some stderr;
               exit_code := exit_code |})
       is_TimeoutExpired
       (fun _ =>
          kill process ;;;
          '(stdout, stderr) <- communicate process None ;;
          now <- lift time_time ;;
          let duration := PrimFloat.sub now start_time in
          ret {| status := FAILED;
                 duration := duration;
                 output := stdout;
                 error :=
                   Some ("Command timed out after " ++ py_str_int timeout
                         ++ "s" ++ newline ++ stderr)%string;
                 exit_code := (-1)%Z |}))
    is_Exception
    (fun e =>
       now <- lift time_time ;;
       let duration := PrimFloat.sub now start_time in
       ret {| status := FAILED;
              duration := duration;
              output := "";
              error := Some (exn_str e);
              exit_code := (-1)%Z |}).

(** The [for] loop of [run_stage]: [commands] is what is left to iterate
    over, [results] the list built so far; [break] leaves the loop. *)
Fixpoint run_stage_loop (commands : list CmdConfig)
    (results : list PipelineResult) : M (list PipelineResult) :=
  match commands with
  | [] => ret results
  | cmd_config :: rest =>
      let cmd_command := dict_get (cfg_command cmd_config) "" in
      let cmd_timeout := dict_get (cfg_timeout cmd_config) 300%Z in
      result <- run_command cmd_command cmd_timeout None ;;
      let results := results ++ [result] in
      if PipelineStatus_eqb (status result) FAILED
      then ret results
      else run_stage_loop rest results
  end.

(** [CIPipeline.run_stage]. *)
Definition run_stage (stage_name : string) (commands : list CmdConfig)
  : M (list PipelineResult) :=
  run_stage_loop commands [].

(** [CIPipeline.save_report]. *)
Definition save_report (report : Report) (filename : string) : M unit :=
  try_except (json_dump_file filename report) is_IOError (fun _ => ret tt).

(** [any(r.status == PipelineStatus.FAILED for r in results)]. *)
Definition any_failed (results : list PipelineResult) : bool :=
  existsb (fun r => PipelineStatus_eqb (status r) FAILED) results.

(** The three stages of [run_pipeline], up to the lists
    [build_results], [test_results] and [deploy_results]. *)
Definition run_pipeline_stages (config : Config)
  : M (list PipelineResult * list PipelineResult * list PipelineResult) :=
  build_results <- run_stage "Build" (build_commands config) ;;
  if any_failed build_results
  then ret (build_results, [], [])
  else
    test_results <- run_stage "Test" (test_commands config) ;;
    if any_failed test_results
    then ret (build_results, test_results, [])
    else
      deploy_results <- run_stage "Deploy" (deployment_commands config) ;;
      ret (build_results, test_results, deploy_results).

(** [CIPipeline.run_pipeline]. *)
Definition run_pipeline (config : Config) : M Report :=
  pipeline_start <- lift time_time ;;
  '(build_results, test_results, deploy_results) <-
     run_pipeline_stages config ;;
  now <- lift time_strftime ;;
  let report :=
    generate_report (project_name config) now
                    build_results test_results deploy_results in
  save_report report "ci_report.json" ;;;
  pipeline_end <- lift time_time ;;
  ret report.

(** *** Reference semantics used by the statements *)

(** What executing one configured command returns. *)
Definition run_configured (cmd_config : CmdConfig) : M PipelineResult :=
  run_command (dict_get (cfg_command cmd_config) "")
              (dict_get (cfg_timeout cmd_config) 300%Z) None.

(** Every command of the list executed in order, whatever the results:
    the sequence of results in which a first failure is looked for. *)
Fixpoint run_each (commands : list CmdConfig) : M (list PipelineResult) :=
  match commands with
  | [] => ret []
  | cmd_config :: rest =>
      result <- run_configured cmd_config ;;
      results <- run_each rest ;;
      ret (result :: results)
  end.

End Executor.

(** The 1-based position of the first result with status [FAILED]. *)
Fixpoint first_failed (results : list PipelineResult) : option nat :=
  match results with
  | [] => None
  | r :: rest =>
      if PipelineStatus_eqb (status r) FAILED then Some 1
      else option_map S (first_failed rest)
  end.

(** The formatting rule in the words of the specification: a text longer
    than 500 characters is cut to its first 500 characters and the
    truncation marker is appended; any other text is unchanged. *)
Definition truncation_marker : string := "...".

Fixpoint first_chars (n : nat) (s : string) : string :=
  match n, s with
  | S n', String c s' => String c (first_chars n' s')
  | _, _ => EmptyString
  end.

Definition truncate_spec (s : string) : string :=
  if (String.length s <=? 500)%nat
  then s
  else (first_chars 500 s ++ truncation_marker)%string.

(** ** A scripted host

    A small deterministic instance of [OS] on which the definitions above
    run: the world is the clock, in whole seconds, and a process is the
    command line it was started from. *)

(** What a command does when left alone: the seconds it takes, what it
    writes on its standard output and error, and its exit code. *)
Definition scripted_command (command : string)
  : Z * (string * string) * Z :=
  if String.eqb command "exit 0" then (0%Z, ("", ""), 0%Z)
  else if String.eqb command "exit 1" then (0%Z, ("", ""), 1%Z)
  else if String.eqb command "echo hi" then (0%Z, ("hi", ""), 0%Z)
  else if String.eqb command "sleep 10" then (10%Z, ("", ""), 0%Z)
  else (0%Z, ("", "command not found"), 127%Z).

Definition scripted_clock (w : Z) : float :=
  PrimFloat.of_uint63 (Uint63.of_Z w).

#[local] Instance scripted_os : OS := {|
  World := Z;
  Process := string;
  time_time := fun w => (scripted_clock w, w);
  time_strftime := fun w => ("2024-01-01 00:00:00", w);
  Popen := fun command cwd w =>
    match cwd with
    | Some dir =>
        (inl (mkExn IOError
                ("[Errno 2] No such file or directory: " ++ dir)%string), w)
    | None => (inr command, w)
    end;
  communicate := fun p timeout w =>
    let '(seconds, outs, _) := scripted_command p in
    match timeout with
    | Some t =>
        if (t <? seconds)%Z
        then (inl (mkExn TimeoutExpired "timed out"), (w + t)%Z)
        else (inr outs, (w + seconds)%Z)
    | None => (inr outs, w)
    end;
  returncode := fun p w => let '(_, _, code) := scripted_command p in (code, w);
  kill := fun _ w => (inr tt, w);
  json_dump_file := fun _ _ w => (inr tt, w)
|}.

Definition cmd (command : string) (timeout : Z) : CmdConfig :=
  {| cfg_name := None;
     cfg_command := Some command;
     cfg_timeout := Some timeout |}.

(** ** Shapes used by the proofs *)

(** The results a stage keeps out of the sequence of all results: those up
    to the first [FAILED] one, that one included. *)
Fixpoint until_failed (results : list PipelineResult)
  : list PipelineResult :=
  match results with
  | [] => []
  | r :: rest =>
      if PipelineStatus_eqb (status r) FAILED then [r]
      else r :: until_failed rest
  end.

(** The two shapes of a result built by [run_command]: the one of a
    process that exited, and the one of the two [except] branches. *)
Inductive command_result : PipelineResult -> Prop :=
  | cr_exited (d : float) (out err : string) (code : Z) :
      command_result
        {| status := if (code =? 0)%Z then SUCCESS else FAILED;
           duration := d; output := out; error := Some err;
           exit_code := code |}
  | cr_failed (d : float) (out err : string) :
      command_result
        {| status := FAILED;
           duration := d; output := out; error := Some err;
           exit_code := (-1)%Z |}.

(** ** A host on which draining and writing fail

    A second scripted host: every wait with a timeout times out, except
    for the command that writes bytes that are not text, whose output
    cannot be decoded; draining the pipes after a kill cannot decode
    either; the report file cannot be written. *)
Definition undecodable : exn :=
  mkExn OtherException
        "'utf-8' codec can't decode byte 0x89 in position 0: invalid start byte".

Definition faulty_os : OS := {|
  World := Z;
  Process := string;
  time_time := fun w => (scripted_clock w, w);
  time_strftime := fun w => ("2024-01-01 00:00:00", w);
  Popen := fun command _ w => (inr command, w);
  communicate := fun p timeout w =>
    match timeout with
    | Some t =>
        if String.eqb p "cat image.png" then (inl undecodable, w)
        else (inl (mkExn TimeoutExpired "timed out"), (w + t)%Z)
    | None => (inl undecodable, w)
    end;
  returncode := fun _ w => (0%Z, w);
  kill := fun _ w => (inr tt, w);
  json_dump_file := fun _ _ w =>
    (inl (mkExn IOError "[Errno 13] Permission denied: 'ci_report.json'"), w)
|}.

(** ** The command line entry point, after the run *)

(** The argument of [sys.exit] at the end of [main]:
    [0 if report['summary']['status'] == 'SUCCESS' else 1]. *)
Definition main_exit_status (report : Report) : Z :=
  if String.eqb (summary_status (summary report)) "SUCCESS" then 0%Z else 1%Z.

(** The line [main] prints for a failed step:
    [f"  - {stage_name}: Step {stage['step']} (Exit code:
    {stage['exit_code']})"]. *)
Definition failed_step_line (stage_name : string) (stage : FormattedStep)
  : string :=
  ("  - " ++ stage_name ++ ": Step " ++ py_str_int (Z.of_nat (fs_step stage))
   ++ " (Exit code: " ++ py_str_int (fs_exit_code stage) ++ ")")%string.

(** What [main] prints from [if report['summary']['status'] == 'FAILED':]
    on, one element per call of [print]; the stages are iterated in the
    order of the keys of [report['stages']]. *)
Definition main_failed_stage_lines (report : Report) : list string :=
  if String.eqb (summary_status (summary report)) "FAILED"
  then
    (newline ++ "Failed stages:")%string
    :: flat_map
         (fun '(stage_name, stages) =>
            flat_map
              (fun stage =>
                 if String.eqb (fs_status stage) "failed"
                 then [failed_step_line stage_name stage]
                 else [])
              stages)
         [("build", stages_build (stages report));
          ("test", stages_test (stages report));
          ("deploy", stages_deploy (stages report))]
  else [].

(** ** The manual rules form *)

(** [c.isspace()] for one character: the ASCII white space, the four
    separators [0x1c] to [0x1f], and the two Latin-1 spaces. *)
Definition is_space (c : ascii) : bool :=
  let n := nat_of_ascii c in
  ((9 <=? n)%nat && (n <=? 13)%nat)
  || ((28 <=? n)%nat && (n <=? 32)%nat)
  || (n =? 133)%nat || (n =? 160)%nat.

Fixpoint lstrip (s : string) : string :=
  match s with
  | EmptyString => EmptyString
  | String c s' => if is_space c then lstrip s' else s
  end.

Fixpoint rstrip (s : string) : string :=
  match s with
  | EmptyString => EmptyString
  | String c s' =>
      match rstrip s' with
      | EmptyString => if is_space c then EmptyString else String c EmptyString
      | r => String c r
      end
  end.

(** [s.strip()]. *)
Definition py_strip (s : string) : string := rstrip (lstrip s).

(** Truth value of a [str]: the empty string is false. *)
Definition truthy_str (s : string) : bool := negb (String.eqb s "").

(** An entry appended to a list of commands:
    [{"name": ..., "command": ..., "timeout": ...}]. *)
Record RuleEntry : Type := mkRuleEntry {
  entry_name : string;
  entry_command : string;
  entry_timeout : Z
}.

(** The values [custom_config] holds: a string, a list of entries, or the
    dictionary of the environment variables. *)
Inductive config_value : Type :=
  | VStr (s : string)
  | VCommands (entries : list RuleEntry)
  | VEnv (vars : list (string * string)).

(** A dictionary with string keys, in insertion order. *)
Definition py_dict (V : Type) : Type := list (string * V).

(** [d[key]], [None] standing for [KeyError]. *)
Fixpoint dict_lookup {V : Type} (key : string) (d : py_dict V) : option V :=
  match d with
  | [] => None
  | (k, v) :: rest => if String.eqb k key then Some v else dict_lookup key rest
  end.

(** [d[key] = v]: the value of a key already there is replaced where it
    stands, a new key goes last. *)
Fixpoint dict_set {V : Type} (key : string) (v : V) (d : py_dict V)
  : py_dict V :=
  match d with
  | [] => [(key, v)]
  | (k, v') :: rest =>
      if String.eqb k key then (k, v) :: rest
      else (k, v') :: dict_set key v rest
  end.

(** [KeyError(key)], whose [str] is the [repr] of the key. *)
Definition KeyError (key : string) : exn :=
  mkExn OtherException ("'" ++ key ++ "'")%string.

(** [AttributeError] of [.append] on a value that is not a list. *)
Definition AttributeError_append (type_name : string) : exn :=
  mkExn OtherException
        ("'" ++ type_name ++ "' object has no attribute 'append'")%string.

(** One row of a rules tab, as its three variables read: [name.get()],
    [command.get()], and [timeout.get()], which raises when the field
    does not hold an integer. *)
Record RuleItem : Type := mkRuleItem {
  item_name : string;
  item_command : string;
  item_timeout : exn + Z
}.

(** One row of the environment variables. *)
Record EnvVar : Type := mkEnvVar {
  var_name : string;
  var_value : string
}.

(** What [save_manual_rules] reads of the window: the three text fields,
    [self.rule_widgets] (stage type to the items of its tab) and
    [self.env_vars]. *)
Record RulesForm : Type := mkRulesForm {
  project_name_var : string;
  work_dir_var : string;
  custom_script_text : string;
  rule_widgets : py_dict (list RuleItem);
  env_vars : list EnvVar
}.

(** The inner loop: [for item in self.rule_widgets[stage_type]['items']].
    The subscription [custom_config[stage_key]] is evaluated before the
    entry is built. *)
Fixpoint collect_items (stage_key : string) (items : list RuleItem)
    (custom_config : py_dict config_value) : exn + py_dict config_value :=
  match items with
  | [] => inr custom_config
  | item :: rest =>
      if truthy_str (py_strip (item_command item))
      then
        match dict_lookup stage_key custom_config with
        | None => inl (KeyError stage_key)
        | Some (VCommands entries) =>
            match item_timeout item with
            | inl e => inl e
            | inr timeout =>
                let entry := {| entry_name := item_name item;
                                entry_command := item_command item;
                                entry_timeout := timeout |} in
                collect_items stage_key rest
                  (dict_set stage_key (VCommands (entries ++ [entry]))
                            custom_config)
            end
        | Some (VStr _) => inl (AttributeError_append "str")
        | Some (VEnv _) => inl (AttributeError_append "dict")
        end
      else collect_items stage_key rest custom_config
  end.

(** The outer loop: [for stage_type in ['build', 'test', 'deploy']]. *)
Fixpoint collect_stages (stage_types : list string)
    (widgets : py_dict (list RuleItem))
    (custom_config : py_dict config_value) : exn + py_dict config_value :=
  match stage_types with
  | [] => inr custom_config
  | stage_type :: rest =>
      let stage_key := (stage_type ++ "_commands")%string in
      match dict_lookup stage_type widgets with
      | None => inl (KeyError stage_type)
      | Some items =>
          match collect_items stage_key items custom_config with
          | inl e => inl e
          | inr custom_config => collect_stages rest widgets custom_config
          end
      end
  end.

(** The loop [for var in self.env_vars]. *)
Fixpoint collect_env_vars (vars : list EnvVar)
    (custom_config : py_dict config_value) : exn + py_dict config_value :=
  match vars with
  | [] => inr custom_config
  | var :: rest =>
      if truthy_str (py_strip (var_name var))
      then
        match dict_lookup "environment_variables" custom_config with
        | None => inl (KeyError "environment_variables")
        | Some (VEnv env) =>
            collect_env_vars rest
              (dict_set "environment_variables"
                        (VEnv (dict_set (var_name var) (var_value var) env))
                        custom_config)
        | Some _ =>
            inl (mkExn OtherException
                       "object does not support item assignment")
        end
      else collect_env_vars rest custom_config
  end.

(** [CIPipelineGUI.save_manual_rules], up to the dictionary handed to
    [json.dump]; [inl e] is the exception that sends the function to its
    [except] branch, before anything is written. *)
Definition save_manual_rules_config (form : RulesForm)
  : exn + py_dict config_value :=
  let custom_config :=
    [("project_name", VStr (project_name_var form));
     ("working_directory", VStr (work_dir_var form));
     ("build_commands", VCommands []);
     ("test_commands", VCommands []);
     ("deployment_commands", VCommands []);
     ("environment_variables", VEnv []);
     ("custom_script", VStr (py_strip (custom_script_text form)))] in
  match collect_stages ["build"; "test"; "deploy"] (rule_widgets form)
                       custom_config with
  | inl e => inl e
  | inr custom_config => collect_env_vars (env_vars form) custom_config
  end.

(** A filled form: one build row, one deploy row whose command is given,
    and one environment variable. *)
Definition sample_form (deploy_command : string) : RulesForm :=
  {| project_name_var := "MyCustomProject";
     work_dir_var := ".";
     custom_script_text := "echo start" ++ newline;
     rule_widgets :=
       [("build", [{| item_name := "custom_build_cmd";
                      item_command := "make";
                      item_timeout := inr 60%Z |}]);
        ("test", []);
        ("deploy", [{| item_name := "custom_deploy_cmd";
                       item_command := deploy_command;
                       item_timeout := inr 300%Z |}])];
     env_vars := [{| var_name := "CI"; var_value := "1" |}] |}.

(** A configuration whose second build command fails. *)
Definition failing_build_config : Config :=
  {| project_name := "MyProject";
     build_commands := [cmd "exit 0" 30; cmd "exit 1" 30; cmd "echo hi" 30];
     test_commands := [cmd "exit 1" 30];
     deployment_commands := [cmd "exit 0" 30] |}.

(** A configuration whose build command sleeps past its timeout. *)
Definition sleeping_build_config : Config :=
  {| project_name := "MyProject";
     build_commands := [cmd "sleep 10" 1];
     test_commands := [cmd "exit 0" 30];
     deployment_commands := [] |}.

(** ** Shapes used by the further properties *)

(** The list a stage returns: statuses are [SUCCESS] or [FAILED], and
    every result before the last one is [SUCCESS]. *)
Definition fail_fast (results : list PipelineResult) : Prop :=
  Forall (fun r => status r = SUCCESS \/ status r = FAILED) results
  /\ Forall (fun r => status r = SUCCESS) (removelast results).

(** The lines expected for a stage: one per [FAILED] result, with the
    1-based position of the result in its stage and its exit code. *)
Definition failed_lines_of (stage_name : string)
    (results : list PipelineResult) : list string :=
  map (fun p : nat * PipelineResult =>
         ("  - " ++ stage_name ++ ": Step "
          ++ py_str_int (Z.of_nat (fst p + 1))
          ++ " (Exit code: " ++ py_str_int (exit_code (snd p)) ++ ")")%string)
      (filter (fun p : nat * PipelineResult =>
                 PipelineStatus_eqb (status (snd p)) FAILED)
              (enumerate results)).

(** ** The timeout, as the specification states it *)


(** ** The sum of floats, for the statements *)

(** One step of a compensated sum: from the total and the compensation
    so far to those after [x]. *)
Definition cs_add (total : float * float) (x : float) : float * float :=
  let (hi, lo) := total in
  let t := (hi + x)%float in
  if (abs x <=? abs hi)%float
  then (t, (lo + ((hi - t) + x))%float)
  else (t, (lo + ((x - t) + hi))%float).

(** The value of a compensated sum: the compensation is added unless it
    is zero, infinite or not a number. *)
Definition cs_to_double (total : float * float) : float :=
  let (hi, lo) := total in
  if PrimFloat.is_zero lo || negb (PrimFloat.is_finite lo)
  then hi
  else (hi + lo)%float.

(** The sum of a list of floats in floating point arithmetic, from left
    to right from zero: plainly, or with the compensation. *)
Definition float_sum (compensated : bool) (xs : list float) : float :=
  if compensated
  then
    match xs with
    | [] => 0%float
    | x :: rest => cs_to_double (fold_left cs_add rest ((0 + x)%float, 0%float))
    end
  else fold_left PrimFloat.add xs 0%float.

(** * Properties *)

(** ** Strings *)

Lemma substring_first_chars (n : nat) :
  forall s, substring 0 n s = first_chars n s.
Proof.
  induction n as [|n IH]; intros [|c s]; simpl; try reflexivity.
  now rewrite IH.
Qed.

Lemma length_append (s t : string) :
  String.length (s ++ t)%string = String.length s + String.length t.
Proof.
  induction s as [|c s IH]; simpl; [reflexivity | now rewrite IH].
Qed.

Lemma length_first_chars (n : nat) :
  forall s, String.length (first_chars n s) = Nat.min n (String.length s).
Proof.
  induction n as [|n IH]; intros [|c s]; simpl; try reflexivity.
  now rewrite IH.
Qed.

Lemma first_chars_short (n : nat) :
  forall s, String.length s <= n -> first_chars n s = s.
Proof.
  induction n as [|n IH]; intros [|c s] H; simpl in *; try reflexivity.
  - lia.
  - rewrite IH by lia. reflexivity.
Qed.

Lemma first_chars_append (n : nat) :
  forall s t, String.length s = n -> first_chars n (s ++ t)%string = s.
Proof.
  induction n as [|n IH]; intros [|c s] t H; simpl in *; try discriminate.
  - now destruct t.
  - rewrite IH by lia. reflexivity.
Qed.

Lemma long_not_empty (s : string) :
  500 < String.length s -> String.eqb s "" = false.
Proof.
  destruct s; simpl; [lia | reflexivity].
Qed.

(** The expression of the source and the rule of the specification agree. *)
Lemma format_output_spec (s : string) : format_output s = truncate_spec s.
Proof.
  unfold format_output, truncate_spec, truncation_marker.
  rewrite substring_first_chars.
  destruct (Nat.ltb_spec 500 (String.length s));
    destruct (Nat.leb_spec (String.length s) 500); try lia; reflexivity.
Qed.

Lemma format_error_spec (e : option string) :
  format_error e = option_map truncate_spec e.
Proof.
  destruct e as [s|]; [|reflexivity].
  unfold format_error, truthy. simpl option_map.
  rewrite <- format_output_spec. unfold format_output.
  destruct (Nat.ltb_spec 500 (String.length s)) as [Hlong|Hshort].
  - rewrite long_not_empty by assumption. reflexivity.
  - now rewrite andb_false_r.
Qed.

Lemma truncate_spec_short (s : string) :
  String.length s <= 500 -> truncate_spec s = s.
Proof.
  intros H. unfold truncate_spec.
  destruct (Nat.leb_spec (String.length s) 500); [reflexivity | lia].
Qed.

Lemma truncate_spec_long (s : string) :
  500 < String.length s ->
  truncate_spec s = (first_chars 500 s ++ truncation_marker)%string.
Proof.
  intros H. unfold truncate_spec.
  destruct (Nat.leb_spec (String.length s) 500); [lia | reflexivity].
Qed.

Lemma length_truncate_spec_long (s : string) :
  500 < String.length s -> String.length (truncate_spec s) = 503.
Proof.
  intros H. rewrite truncate_spec_long by assumption.
  rewrite length_append, length_first_chars.
  rewrite Nat.min_l by lia. reflexivity.
Qed.

Lemma truncate_spec_idempotent (s : string) :
  truncate_spec (truncate_spec s) = truncate_spec s.
Proof.
  destruct (Nat.le_gt_cases (String.length s) 500) as [Hshort|Hlong].
  - rewrite (truncate_spec_short s Hshort).
    exact (truncate_spec_short s Hshort).
  - rewrite (truncate_spec_long (truncate_spec s)).
    + rewrite (truncate_spec_long s) by assumption.
      rewrite first_chars_append; [reflexivity|].
      rewrite length_first_chars. apply Nat.min_l. lia.
    + rewrite length_truncate_spec_long by assumption. lia.
Qed.

(** ** The report *)

Lemma PipelineStatus_eqb_eq (a b : PipelineStatus) :
  PipelineStatus_eqb a b = true <-> a = b.
Proof.
  split.
  - destruct a, b; simpl; intros H; try reflexivity; discriminate H.
  - intros ->. now destruct b.
Qed.

(** A field of a formatted step that is computed from the result alone
    does not depend on the index [enumerate] attaches. *)
Lemma map_combine_seq {A B : Type} (h : A -> B) (xs : list A) :
  forall start,
    map (fun p : nat * A => h (snd p)) (combine (seq start (List.length xs)) xs)
    = map h xs.
Proof.
  induction xs as [|x xs IH]; intros start; simpl; [reflexivity|].
  now rewrite IH.
Qed.

Lemma format_stage_results_outputs (results : list PipelineResult) :
  map fs_output (format_stage_results results)
  = map (fun r => format_output (output r)) results.
Proof.
  unfold format_stage_results, enumerate. rewrite map_map.
  rewrite <- (map_combine_seq (fun r => format_output (output r)) results 0).
  apply map_ext. now intros [i r].
Qed.

Lemma format_stage_results_errors (results : list PipelineResult) :
  map fs_error (format_stage_results results)
  = map (fun r => format_error (error r)) results.
Proof.
  unfold format_stage_results, enumerate. rewrite map_map.
  rewrite <- (map_combine_seq (fun r => format_error (error r)) results 0).
  apply map_ext. now intros [i r].
Qed.

Lemma format_stage_results_statuses (results : list PipelineResult) :
  map fs_status (format_stage_results results)
  = map (fun r => PipelineStatus_value (status r)) results.
Proof.
  unfold format_stage_results, enumerate. rewrite map_map.
  rewrite <- (map_combine_seq
                (fun r => PipelineStatus_value (status r)) results 0).
  apply map_ext. now intros [i r].
Qed.

Lemma length_format_stage_results (results : list PipelineResult) :
  List.length (format_stage_results results) = List.length results.
Proof.
  rewrite <- (length_map fs_status), format_stage_results_statuses.
  apply length_map.
Qed.

Lemma py_sum_from_app (xs ys : list float) :
  forall acc, py_sum_from acc (xs ++ ys) = py_sum_from (py_sum_from acc xs) ys.
Proof.
  induction xs as [|x xs IH]; intros acc; simpl; [reflexivity | apply IH].
Qed.

Lemma filter_failed_nil (results : list PipelineResult) :
  filter (fun r => PipelineStatus_eqb (status r) FAILED) results = []
  <-> ~ exists r, In r results /\ status r = FAILED.
Proof.
  split.
  - intros Hnil [r [Hin Hst]].
    assert (Hf : In r (filter (fun r => PipelineStatus_eqb (status r) FAILED)
                              results)).
    { apply filter_In. split; [assumption|]. now apply PipelineStatus_eqb_eq. }
    rewrite Hnil in Hf. exact Hf.
  - intros Hnone.
    destruct (filter (fun r => PipelineStatus_eqb (status r) FAILED) results)
      as [|r rest] eqn:E; [reflexivity|].
    exfalso. apply Hnone. exists r.
    assert (Hf : In r (filter (fun r => PipelineStatus_eqb (status r) FAILED)
                              results))
      by (rewrite E; now left).
    apply filter_In in Hf. destruct Hf as [Hin Hst].
    split; [assumption | now apply PipelineStatus_eqb_eq].
Qed.

(** C1. The status of the summary is ["FAILED"] exactly when one of the
    results of the three lists has status [FAILED], which is exactly when
    the count [failed_stages] is positive; it is ["SUCCESS"] otherwise. *)
Theorem generate_report_status {py : Interpreter}
    (project_name now : string) (b t d : list PipelineResult) :
  let s := summary (generate_report project_name now b t d) in
  (summary_status s = "FAILED"
   <-> exists r, In r (b ++ t ++ d) /\ status r = FAILED)
  /\ (summary_status s = "FAILED" <-> 0 < failed_stages s)
  /\ (summary_status s = "SUCCESS"
      <-> ~ exists r, In r (b ++ t ++ d) /\ status r = FAILED)
  /\ (summary_status s = "SUCCESS" <-> failed_stages s = 0).
Proof.
  cbv zeta. unfold generate_report. cbn [summary summary_status failed_stages].
  pose proof (filter_failed_nil (b ++ t ++ d)) as Hnil.
  destruct (filter (fun r => PipelineStatus_eqb (status r) FAILED)
                   (b ++ t ++ d)) as [|r rest] eqn:E.
  - assert (Hnone : ~ exists r, In r (b ++ t ++ d) /\ status r = FAILED)
      by (now apply Hnil).
    cbn [List.length]. repeat split; intros H;
      try discriminate H; try reflexivity; try assumption;
      try (exfalso; now apply Hnone); try lia.
  - assert (Hsome : exists r, In r (b ++ t ++ d) /\ status r = FAILED).
    { exists r.
      assert (Hf : In r (filter (fun r => PipelineStatus_eqb (status r) FAILED)
                                (b ++ t ++ d)))
        by (rewrite E; now left).
      apply filter_In in Hf. destruct Hf as [Hin Hst].
      split; [assumption | now apply PipelineStatus_eqb_eq]. }
    cbn [List.length]. repeat split; intros H;
      try discriminate H; try reflexivity; try assumption;
      try (exfalso; now apply H); try lia.
Qed.

Lemma py_sum_from_fold (xs : list float) :
  forall acc, py_sum_from acc xs = fold_left PrimFloat.add xs acc.
Proof.
  induction xs as [|x xs IH]; intros acc; simpl; [reflexivity | apply IH].
Qed.

Lemma py_sum_compensated_from_fold (xs : list float) :
  forall f_result c,
    py_sum_compensated_from f_result c xs
    = cs_to_double (fold_left cs_add xs (f_result, c)).
Proof.
  induction xs as [|x xs IH]; intros f_result c.
  - cbn [py_sum_compensated_from fold_left cs_to_double].
    destruct (PrimFloat.is_zero c), (PrimFloat.is_finite c); reflexivity.
  - cbn [py_sum_compensated_from fold_left cs_add].
    destruct (PrimFloat.leb (PrimFloat.abs x) (PrimFloat.abs f_result));
      apply IH.
Qed.

Lemma py_sum_float_sum {py : Interpreter} (xs : list float) :
  py_sum xs = float_sum compensated_sum xs.
Proof.
  unfold py_sum, float_sum.
  destruct xs as [|x rest]; [now destruct compensated_sum|].
  destruct compensated_sum.
  - apply py_sum_compensated_from_fold.
  - exact (py_sum_from_fold rest (0 + x)%float).
Qed.

(** C4. The total duration of the summary is the floating point sum, as
    the interpreter's [sum] computes it, of the durations of the results
    present in the three lists, and of nothing else: those of the build
    results, then of the test results, then of the deploy results. Under
    plain addition it is the deploy durations added to the test
    durations added to the build durations added to zero. *)
Theorem generate_report_total_duration {py : Interpreter}
    (project_name now : string) (b t d : list PipelineResult) :
  let s := summary (generate_report project_name now b t d) in
  total_duration s
  = float_sum compensated_sum
              (map duration b ++ map duration t ++ map duration d)
  /\ (compensated_sum = false ->
      total_duration s
      = fold_left PrimFloat.add (map duration d)
          (fold_left PrimFloat.add (map duration t)
             (fold_left PrimFloat.add (map duration b) 0%float)))
  /\ total_stages s = List.length b + List.length t + List.length d.
Proof.
  cbv zeta. unfold generate_report. cbn [summary total_duration total_stages].
  rewrite py_sum_float_sum, !map_app, !length_app.
  split; [reflexivity|]. split; [|lia].
  intros ->. unfold float_sum. now rewrite !fold_left_app.
Qed.

(** C5. In every formatted step the output and the error are the
    truncation, by the rule of the specification, of the output and of the
    error of the result at the same position; an absent error stays
    absent. *)
Theorem format_stage_results_truncates (results : list PipelineResult) :
  map fs_output (format_stage_results results)
  = map (fun r => truncate_spec (output r)) results
  /\ map fs_error (format_stage_results results)
     = map (fun r => option_map truncate_spec (error r)) results
  /\ (forall s, 500 < String.length s ->
        truncate_spec s = (substring 0 500 s ++ truncation_marker)%string)
  /\ (forall s, String.length s <= 500 -> truncate_spec s = s).
Proof.
  split; [|split; [|split]].
  - rewrite format_stage_results_outputs.
    apply map_ext. intros r. apply format_output_spec.
  - rewrite format_stage_results_errors.
    apply map_ext. intros r. apply format_error_spec.
  - intros s H. rewrite substring_first_chars. now apply truncate_spec_long.
  - apply truncate_spec_short.
Qed.

(** C6. Truncation is idempotent on the output and on the error; on
    both, a text of at most 500 characters is unchanged and a text of 600
    characters becomes its first 500 characters followed by the marker;
    an absent error stays absent. *)
Theorem format_output_idempotent :
  (forall s, format_output (format_output s) = format_output s)
  /\ (forall e, format_error (format_error e) = format_error e)
  /\ (forall s, String.length s <= 500 -> format_output s = s)
  /\ (forall s, String.length s = 600 ->
        format_output s = (substring 0 500 s ++ "...")%string
        /\ String.length (format_output s) = 503)
  /\ (forall s, String.length s <= 500 -> format_error (Some s) = Some s)
  /\ (forall s, String.length s = 600 ->
        format_error (Some s) = Some (substring 0 500 s ++ "...")%string)
  /\ format_error None = None.
Proof.
  split; [|split; [|split; [|split; [|split; [|split]]]]];
    [| | | | | |reflexivity].
  - intros s. rewrite !format_output_spec. apply truncate_spec_idempotent.
  - intros e. rewrite !format_error_spec. destruct e as [s|]; simpl.
    + now rewrite truncate_spec_idempotent.
    + reflexivity.
  - intros s H. rewrite format_output_spec. now apply truncate_spec_short.
  - intros s H. rewrite format_output_spec. split.
    + rewrite substring_first_chars. apply truncate_spec_long. lia.
    + apply length_truncate_spec_long. lia.
  - intros s H. rewrite format_error_spec. cbn [option_map].
    now rewrite truncate_spec_short.
  - intros s H. rewrite format_error_spec. cbn [option_map].
    rewrite substring_first_chars, truncate_spec_long by lia. reflexivity.
Qed.

(** ** The command executor *)

Section ExecutorProperties.

Context {os : OS} {py : Interpreter}.

(** Runs the calls of the host one after the other, naming what each
    returns. *)
Ltac host_step :=
  match goal with
  | |- context [time_time ?w] =>
      is_var w; destruct (time_time w) as [? ?] eqn:?
  | |- context [Popen ?c ?d ?w] =>
      is_var w; destruct (Popen c d w) as [[?|?] ?] eqn:?
  | |- context [communicate ?p ?t ?w] =>
      is_var w; destruct (communicate p t w) as [[?|[? ?]] ?] eqn:?
  | |- context [returncode ?p ?w] =>
      is_var w; destruct (returncode p w) as [? ?] eqn:?
  | |- context [kill ?p ?w] =>
      is_var w; destruct (kill p w) as [[?|?] ?] eqn:?
  | |- context [if is_TimeoutExpired ?e then _ else _] =>
      destruct (is_TimeoutExpired e) eqn:?
  end; cbn beta iota.

Ltac run_host :=
  unfold run_command, bind, try_except, lift, ret, is_Exception;
  repeat host_step.

(** [run_command] always returns, and what it returns has one of the two
    shapes of [command_result]. *)
Lemma run_command_returns
    (command : string) (timeout : Z) (cwd : option string) (w : World) :
  exists r w', run_command command timeout cwd w = (inr r, w')
               /\ command_result r.
Proof.
  run_host; eexists; eexists; (split; [reflexivity | constructor]).
Qed.

(** Whenever the wait for the process times out, whatever the kill and the
    draining of the pipes then do, the result is a failure with the exit
    code [-1] and an error text. *)
Lemma timeout_always_failed
    (command : string) (timeout : Z) (cwd : option string)
    (w w0 w1 w2 : World) (t0 : float) (p : Process) (e : exn)
    (Hstart : time_time w = (t0, w0))
    (Hlaunch : Popen command cwd w0 = (inr p, w1))
    (Hwait : communicate p (Some timeout) w1 = (inl e, w2))
    (Hclass : is_TimeoutExpired e = true) :
  exists r w',
    run_command command timeout cwd w = (inr r, w')
    /\ status r = FAILED
    /\ exit_code r = (-1)%Z
    /\ error r <> None.
Proof.
  unfold run_command, bind, try_except, lift, ret, is_Exception.
  rewrite Hstart; cbn beta iota. rewrite Hlaunch; cbn beta iota.
  rewrite Hwait; cbn beta iota. rewrite Hclass.
  repeat host_step;
    eexists; eexists; (split; [reflexivity|]); cbn; repeat split; discriminate.
Qed.


(** C8. When the launch of the process raises, [run_command] raises
    nothing: it returns a result with status [FAILED], exit code [-1], an
    empty output, and the text of the exception as error. *)
Theorem run_command_launch_failure
    (command : string) (timeout : Z) (cwd : option string)
    (w w0 w1 w2 : World) (t0 t1 : float) (e : exn)
    (Hstart : time_time w = (t0, w0))
    (Hlaunch : Popen command cwd w0 = (inl e, w1))
    (Hend : time_time w1 = (t1, w2)) :
  run_command command timeout cwd w
  = (inr {| status := FAILED;
            duration := PrimFloat.sub t1 t0;
            output := "";
            error := Some (exn_str e);
            exit_code := (-1)%Z |},
     w2).
Proof.
  unfold run_command, bind, try_except, lift, ret, is_Exception.
  rewrite Hstart; cbn beta iota. rewrite Hlaunch; cbn beta iota.
  rewrite Hend. reflexivity.
Qed.

Lemma command_result_failed (r : PipelineResult) :
  command_result r -> status r = FAILED ->
  error r <> None \/ exit_code r <> 0%Z.
Proof.
  intros [d out err code | d out err] Hst; cbn in *.
  - right. intros ->. discriminate Hst.
  - left. discriminate.
Qed.

Lemma command_result_status (r : PipelineResult) :
  command_result r -> status r = SUCCESS \/ status r = FAILED.
Proof.
  intros [d out err code | d out err]; cbn.
  - destruct (code =? 0)%Z; [now left | now right].
  - now right.
Qed.

(** C9. [run_command] returns a result, and if its status is [FAILED]
    then its error is not absent or its exit code is not 0. *)
Theorem run_command_failed_has_cause
    (command : string) (timeout : Z) (cwd : option string) (w : World) :
  exists r w',
    run_command command timeout cwd w = (inr r, w')
    /\ (status r = FAILED -> error r <> None \/ exit_code r <> 0%Z).
Proof.
  destruct (run_command_returns command timeout cwd w) as (r & w' & Hrun & Hr).
  exists r, w'. split; [assumption|]. now apply command_result_failed.
Qed.

(** ** The stage runner *)

Lemma bind_returned {A B : Type} (m : M A) (k : A -> M B)
    (w w' : World) (a : A) :
  m w = (inr a, w') -> bind m k w = k a w'.
Proof.
  intros H. unfold bind. now rewrite H.
Qed.

Lemma run_configured_returns (cmd_config : CmdConfig) (w : World) :
  exists r w', run_configured cmd_config w = (inr r, w') /\ command_result r.
Proof.
  apply run_command_returns.
Qed.

(** Executing every command returns one result per command. *)
Lemma run_each_returns (commands : list CmdConfig) :
  forall w, exists results w',
    run_each commands w = (inr results, w')
    /\ List.length results = List.length commands
    /\ Forall command_result results.
Proof.
  induction commands as [|c rest IH]; intros w.
  - exists [], w. repeat split. constructor.
  - destruct (run_configured_returns c w) as (r & w1 & Hr & Hshape).
    destruct (IH w1) as (rs & w2 & Hrs & Hlen & Hall).
    exists (r :: rs), w2. cbn [run_each].
    rewrite (bind_returned _ _ _ _ _ Hr), (bind_returned _ _ _ _ _ Hrs).
    repeat split; [cbn; now rewrite Hlen | now constructor].
Qed.

(** The loop of [run_stage] appends, to what it was given, the results up
    to the first failure, and has then executed exactly as many commands
    as it appended results. *)
Lemma run_stage_loop_until_failed (commands : list CmdConfig) :
  forall acc w all w_all,
    run_each commands w = (inr all, w_all) ->
    exists w',
      run_stage_loop commands acc w = (inr (acc ++ until_failed all), w')
      /\ run_each (firstn (List.length (until_failed all)) commands) w
         = (inr (until_failed all), w').
Proof.
  induction commands as [|c rest IH]; intros acc w all w_all Hall.
  - cbn in Hall. injection Hall as <- <-.
    exists w. cbn. now rewrite app_nil_r.
  - destruct (run_configured_returns c w) as (r & w1 & Hr & _).
    destruct (run_each_returns rest w1) as (rs & w2 & Hrs & _ & _).
    cbn [run_each] in Hall.
    rewrite (bind_returned _ _ _ _ _ Hr), (bind_returned _ _ _ _ _ Hrs) in Hall.
    injection Hall as <- <-.
    cbn [run_stage_loop until_failed].
    change (run_command (dict_get (cfg_command c) "")
                        (dict_get (cfg_timeout c) 300%Z) None)
      with (run_configured c).
    rewrite (bind_returned _ _ _ _ _ Hr).
    destruct (PipelineStatus_eqb (status r) FAILED) eqn:Hst.
    + exists w1. split; [reflexivity|].
      cbn [List.length firstn run_each].
      now rewrite (bind_returned _ _ _ _ _ Hr).
    + destruct (IH (acc ++ [r]) w1 rs w2 Hrs) as (w' & Hloop & Hpre).
      exists w'. split.
      * rewrite Hloop, <- app_assoc. reflexivity.
      * cbn [List.length firstn run_each].
        rewrite (bind_returned _ _ _ _ _ Hr), (bind_returned _ _ _ _ _ Hpre).
        reflexivity.
Qed.

Lemma until_failed_first_failed (results : list PipelineResult) :
  forall k, first_failed results = Some k ->
            until_failed results = firstn k results
            /\ List.length (until_failed results) = k.
Proof.
  induction results as [|r rest IH]; intros k Hk; cbn in *; [discriminate|].
  destruct (PipelineStatus_eqb (status r) FAILED).
  - injection Hk as <-. split; reflexivity.
  - destruct (first_failed rest) as [j|]; [|discriminate].
    injection Hk as <-. destruct (IH j eq_refl) as [Heq Hlen].
    cbn. split; congruence.
Qed.

Lemma until_failed_none (results : list PipelineResult) :
  first_failed results = None -> until_failed results = results.
Proof.
  induction results as [|r rest IH]; intros Hk; cbn in *; [reflexivity|].
  destruct (PipelineStatus_eqb (status r) FAILED); [discriminate|].
  destruct (first_failed rest); [discriminate|].
  now rewrite IH.
Qed.

Lemma first_failed_until_failed (results : list PipelineResult) :
  first_failed (until_failed results) = first_failed results.
Proof.
  induction results as [|r rest IH]; cbn; [reflexivity|].
  destruct (PipelineStatus_eqb (status r) FAILED) eqn:Hst; cbn; rewrite Hst.
  - reflexivity.
  - now rewrite IH.
Qed.

Lemma until_failed_Forall (P : PipelineResult -> Prop)
    (results : list PipelineResult) :
  Forall P results -> Forall P (until_failed results).
Proof.
  induction 1 as [|r rest Hr Hrest IH]; cbn; [constructor|].
  destruct (PipelineStatus_eqb (status r) FAILED); repeat constructor;
    assumption.
Qed.

(** What [run_stage] returns, in one statement. *)
Lemma run_stage_returns (stage_name : string) (commands : list CmdConfig)
    (w : World) :
  exists all w_all w',
    run_each commands w = (inr all, w_all)
    /\ List.length all = List.length commands
    /\ Forall command_result all
    /\ run_stage stage_name commands w = (inr (until_failed all), w')
    /\ run_each (firstn (List.length (until_failed all)) commands) w
       = (inr (until_failed all), w').
Proof.
  destruct (run_each_returns commands w) as (all & w_all & Hall & Hlen & Hsh).
  destruct (run_stage_loop_until_failed commands [] w all w_all Hall)
    as (w' & Hloop & Hpre).
  exists all, w_all, w'. repeat split; assumption.
Qed.

(** C3. [run_stage] returns the results of the commands it executed, in
    order. If, in the sequence of the results of the commands, the first
    [FAILED] one is at position [k], the returned list is the first [k]
    results and has [k] elements; if none is [FAILED] the returned list
    has one result per command; no command gives no result. *)
Theorem run_stage_fail_fast (stage_name : string)
    (commands : list CmdConfig) (w : World) :
  exists all w_all results w',
    run_each commands w = (inr all, w_all)
    /\ run_stage stage_name commands w = (inr results, w')
    /\ run_each (firstn (List.length results) commands) w = (inr results, w')
    /\ (forall k, first_failed all = Some k ->
                  results = firstn k all /\ List.length results = k)
    /\ (forall k, first_failed results = Some k -> List.length results = k)
    /\ (first_failed results = None ->
        results = all /\ List.length results = List.length commands)
    /\ run_stage stage_name [] w = (inr [], w).
Proof.
  destruct (run_stage_returns stage_name commands w)
    as (all & w_all & w' & Hall & Hlen & _ & Hrun & Hpre).
  exists all, w_all, (until_failed all), w'.
  split; [assumption|]. split; [assumption|]. split; [assumption|].
  split; [|split; [|split]].
  - intros k Hk. now apply until_failed_first_failed.
  - intros k Hk. rewrite first_failed_until_failed in Hk.
    now apply until_failed_first_failed.
  - intros Hnone. rewrite first_failed_until_failed in Hnone.
    rewrite (until_failed_none all Hnone). split; [reflexivity | assumption].
  - reflexivity.
Qed.

(** C10. The status of a result returned by [run_command], and so of
    every element of a list returned by [run_stage], is [SUCCESS] or
    [FAILED]. *)
Theorem results_are_success_or_failed :
  (forall command timeout cwd (w : World),
      exists r w',
        run_command command timeout cwd w = (inr r, w')
        /\ (status r = SUCCESS \/ status r = FAILED))
  /\ (forall stage_name commands (w : World),
        exists results w',
          run_stage stage_name commands w = (inr results, w')
          /\ Forall (fun r => status r = SUCCESS \/ status r = FAILED)
                    results).
Proof.
  split.
  - intros command timeout cwd w.
    destruct (run_command_returns command timeout cwd w)
      as (r & w' & Hrun & Hr).
    exists r, w'. split; [assumption | now apply command_result_status].
  - intros stage_name commands w.
    destruct (run_stage_returns stage_name commands w)
      as (all & w_all & w' & _ & _ & Hsh & Hrun & _).
    exists (until_failed all), w'. split; [assumption|].
    apply until_failed_Forall.
    eapply Forall_impl; [|exact Hsh]. apply command_result_status.
Qed.

(** ** The orchestrator *)

Lemma any_failed_iff (results : list PipelineResult) :
  any_failed results = true
  <-> exists r, In r results /\ status r = FAILED.
Proof.
  unfold any_failed. rewrite existsb_exists.
  split; intros (r & Hin & Hst); exists r; (split; [assumption|]);
    now apply PipelineStatus_eqb_eq.
Qed.

(** The three lists of [run_pipeline]: a stage is run only when no result
    of the stages before it is [FAILED], and is empty otherwise. *)
Lemma run_pipeline_stages_returns (config : Config) (w : World) :
  exists b t d w',
    run_pipeline_stages config w = (inr (b, t, d), w')
    /\ (any_failed b = true ->
        t = [] /\ d = []
        /\ run_stage "Build" (build_commands config) w = (inr b, w'))
    /\ (any_failed b = false -> any_failed t = true -> d = []).
Proof.
  unfold run_pipeline_stages.
  destruct (run_stage_returns "Build" (build_commands config) w)
    as (ab & _ & w1 & _ & _ & _ & Hb & _).
  rewrite (bind_returned _ _ _ _ _ Hb).
  destruct (any_failed (until_failed ab)) eqn:Fb.
  - exists (until_failed ab), [], [], w1.
    split; [reflexivity|]. split; [intros _; repeat split; assumption|].
    intros _ _; reflexivity.
  - destruct (run_stage_returns "Test" (test_commands config) w1)
      as (at' & _ & w2 & _ & _ & _ & Ht & _).
    rewrite (bind_returned _ _ _ _ _ Ht).
    destruct (any_failed (until_failed at')) eqn:Ft.
    + exists (until_failed ab), (until_failed at'), [], w2.
      split; [reflexivity|]. split; [congruence | intros _ _; reflexivity].
    + destruct (run_stage_returns "Deploy" (deployment_commands config) w2)
        as (ad & _ & w3 & _ & _ & _ & Hd & _).
      rewrite (bind_returned _ _ _ _ _ Hd).
      exists (until_failed ab), (until_failed at'), (until_failed ad), w3.
      split; [reflexivity|].
      split; congruence.
Qed.

(** C2. In [run_pipeline], when a result of the Build stage is [FAILED]
    the Test and Deploy lists are empty, and the world is the one the
    Build stage left; when no Build result is [FAILED] and a Test result
    is, the Deploy list is empty. The report, when the pipeline returns
    one, is generated from these three lists. *)
Theorem run_pipeline_short_circuit (config : Config) (w : World) :
  exists b t d w',
    run_pipeline_stages config (snd (time_time w)) = (inr (b, t, d), w')
    /\ ((exists r, In r b /\ status r = FAILED) ->
        t = [] /\ d = []
        /\ run_stage "Build" (build_commands config) (snd (time_time w))
           = (inr b, w'))
    /\ (~ (exists r, In r b /\ status r = FAILED) ->
        (exists r, In r t /\ status r = FAILED) -> d = [])
    /\ (forall report w'',
          run_pipeline config w = (inr report, w'') ->
          report = generate_report (project_name config)
                                   (fst (time_strftime w')) b t d).
Proof.
  destruct (run_pipeline_stages_returns config (snd (time_time w)))
    as (b & t & d & w' & Hrun & Hbuild & Htest).
  exists b, t, d, w'. split; [assumption|]. split; [|split].
  - intros Hb. apply Hbuild. now apply any_failed_iff.
  - intros Hb Ht. apply Htest.
    + destruct (any_failed b) eqn:Fb; [|reflexivity].
      exfalso. apply Hb. now apply any_failed_iff.
    + now apply any_failed_iff.
  - intros report w''. unfold run_pipeline, save_report.
    unfold bind at 1. unfold lift at 1.
    destruct (time_time w) as [t0 w0]. cbn [snd] in Hrun.
    rewrite (bind_returned _ _ _ _ _ Hrun).
    unfold bind, try_except, lift, ret.
    destruct (time_strftime w') as [now w1]. cbn [fst].
    destruct (json_dump_file _ _ w1) as [[e|[]] w2].
    + destruct (is_IOError e).
      * destruct (time_time w2). intros H. now injection H as <- _.
      * intros H. discriminate H.
    + destruct (time_time w2). intros H. now injection H as <- _.
Qed.

End ExecutorProperties.

(** ** Runs on the scripted host *)



(** A command started in a directory that does not exist. *)
Lemma run_command_launch_failure_on_missing_cwd :
  run_command "exit 0" 300 (Some "/nonexistent") 5%Z
  = (inr {| status := FAILED;
            duration := 0%float;
            output := "";
            error :=
              Some "[Errno 2] No such file or directory: /nonexistent";
            exit_code := (-1)%Z |},
     5%Z).
Proof.
  exact (run_command_launch_failure (os := scripted_os)
           "exit 0" 300 (Some "/nonexistent") 5%Z 5%Z 5%Z 5%Z
           (scripted_clock 5) (scripted_clock 5)
           (mkExn IOError "[Errno 2] No such file or directory: /nonexistent")
           eq_refl eq_refl eq_refl).
Defined.

(** The three scenarios of the specification. *)
Example scenario_all_succeed {py : Interpreter} :
  exists report w',
    run_pipeline {| project_name := "MyProject";
                    build_commands := [cmd "exit 0" 30];
                    test_commands := [cmd "exit 0" 30];
                    deployment_commands := [cmd "exit 0" 30] |} 0%Z
    = (inr report, w')
    /\ summary_status (summary report) = "SUCCESS"
    /\ total_stages (summary report) = 3
    /\ failed_stages (summary report) = 0.
Proof.
  eexists; eexists. split; [vm_compute; reflexivity|]. repeat split.
Qed.

Example scenario_build_fails {py : Interpreter} :
  exists report w',
    run_pipeline {| project_name := "MyProject";
                    build_commands := [cmd "exit 1" 30];
                    test_commands := [cmd "exit 0" 30];
                    deployment_commands := [cmd "exit 0" 30] |} 0%Z
    = (inr report, w')
    /\ summary_status (summary report) = "FAILED"
    /\ total_stages (summary report) = 1
    /\ map fs_status (stages_build (stages report)) = ["failed"]
    /\ stages_test (stages report) = []
    /\ stages_deploy (stages report) = [].
Proof.
  eexists; eexists. split; [vm_compute; reflexivity|]. repeat split.
Qed.

Example scenario_test_times_out {py : Interpreter} :
  exists report w',
    run_pipeline {| project_name := "MyProject";
                    build_commands := [cmd "exit 0" 30];
                    test_commands := [cmd "sleep 10" 1];
                    deployment_commands := [cmd "exit 0" 30] |} 0%Z
    = (inr report, w')
    /\ map fs_status (stages_test (stages report)) = ["failed"]
    /\ map fs_exit_code (stages_test (stages report)) = [(-1)%Z]
    /\ map fs_duration (stages_test (stages report)) = [1%float]
    /\ stages_deploy (stages report) = [].
Proof.
  eexists; eexists. split; [vm_compute; reflexivity|]. repeat split.
Qed.

(** A stage of three commands whose second fails keeps two results. *)
Example run_stage_stops_at_second :
  exists results w',
    run_stage "Build" [cmd "exit 0" 30; cmd "exit 1" 30; cmd "echo hi" 30]
              0%Z
    = (inr results, w')
    /\ map exit_code results = [0%Z; 1%Z]
    /\ first_failed results = Some 2.
Proof.
  eexists; eexists. split; [vm_compute; reflexivity|]. repeat split.
Qed.

(** The two ways of adding floats differ: ten times one tenth, and a
    small term between two large opposite ones. *)
Example py_sum_by_interpreter :
  let tenth := 0x1.999999999999ap-4%float in
  py_sum (py := cpython_311) (repeat tenth 10) = 0x1.fffffffffffffp-1%float
  /\ py_sum (py := cpython_312) (repeat tenth 10) = 1%float
  /\ py_sum (py := cpython_311) [1e16; 1; -1e16]%float = 0%float
  /\ py_sum (py := cpython_312) [1e16; 1; -1e16]%float = 1%float.
Proof.
  repeat split.
Qed.

(** The error of a result: absent, empty and short texts are unchanged. *)
Example format_error_unchanged :
  format_error None = None
  /\ format_error (Some "") = Some ""
  /\ format_error (Some "boom") = Some "boom".
Proof.
  repeat split.
Qed.

(** A report over two build results and one failed test result. *)
Example generate_report_counts {py : Interpreter} :
  let ok := {| status := SUCCESS; duration := 1.5%float; output := "ok";
               error := Some ""; exit_code := 0%Z |} in
  let ko := {| status := FAILED; duration := 0.25%float; output := "";
               error := Some "boom"; exit_code := 2%Z |} in
  summary (generate_report "MyProject" "2024-01-01 00:00:00" [ok; ok] [ko] [])
  = {| total_stages := 3;
       successful_stages := 2;
       failed_stages := 1;
       total_duration := 3.25%float;
       summary_status := "FAILED" |}.
Proof.
  destruct py as [[|]]; vm_compute; reflexivity.
Qed.

(** * Further properties *)

(** ** Formatting *)

Lemma map_fst_combine_seq {A : Type} (xs : list A) :
  forall start,
    map (fun p : nat * A => fst p + 1) (combine (seq start (List.length xs)) xs)
    = seq (start + 1) (List.length xs).
Proof.
  induction xs as [|x xs IH]; intros start; simpl; [reflexivity|].
  f_equal. rewrite IH. reflexivity.
Qed.

(** X1. Formatting a stage keeps one step per result, numbers the steps
    from 1 in the order of the results, and carries the status value, the
    exit code and the duration of each result over unchanged. *)
Theorem format_stage_results_steps (results : list PipelineResult) :
  List.length (format_stage_results results) = List.length results
  /\ map fs_step (format_stage_results results)
     = seq 1 (List.length results)
  /\ map fs_status (format_stage_results results)
     = map (fun r => PipelineStatus_value (status r)) results
  /\ map fs_exit_code (format_stage_results results)
     = map exit_code results
  /\ map fs_duration (format_stage_results results)
     = map duration results.
Proof.
  split; [apply length_format_stage_results|].
  split; [|split; [apply format_stage_results_statuses|split]].
  - unfold format_stage_results, enumerate. rewrite map_map.
    change (seq 1 (List.length results))
      with (seq (0 + 1) (List.length results)).
    rewrite <- (map_fst_combine_seq results 0).
    apply map_ext. now intros [i r].
  - unfold format_stage_results, enumerate. rewrite map_map.
    rewrite <- (map_combine_seq exit_code results 0).
    apply map_ext. now intros [i r].
  - unfold format_stage_results, enumerate. rewrite map_map.
    rewrite <- (map_combine_seq duration results 0).
    apply map_ext. now intros [i r].
Qed.

(** X2. A formatted output has the length of the text when that is at
    most 500 and 503 otherwise, so never more than 503 characters, and its
    first 500 characters are those of the text. *)
Theorem format_output_length (s : string) :
  String.length (format_output s)
  = (if (500 <? String.length s)%nat then 503 else String.length s)
  /\ String.length (format_output s) <= 503
  /\ substring 0 500 (format_output s) = substring 0 500 s.
Proof.
  rewrite format_output_spec, !substring_first_chars.
  destruct (Nat.ltb_spec 500 (String.length s)) as [Hlong|Hshort].
  - rewrite length_truncate_spec_long by assumption.
    split; [reflexivity|]. split; [lia|].
    rewrite truncate_spec_long by assumption.
    apply first_chars_append.
    rewrite length_first_chars. apply Nat.min_l. lia.
  - rewrite truncate_spec_short by assumption.
    split; [reflexivity|]. split; [lia | reflexivity].
Qed.

(** ** Counting *)

Lemma filter_failed_app (xs ys : list PipelineResult) :
  filter (fun r => PipelineStatus_eqb (status r) FAILED) (xs ++ ys)
  = filter (fun r => PipelineStatus_eqb (status r) FAILED) xs
    ++ filter (fun r => PipelineStatus_eqb (status r) FAILED) ys.
Proof.
  apply filter_app.
Qed.

Lemma counts_le (results : list PipelineResult) :
  List.length (filter (fun r => PipelineStatus_eqb (status r) SUCCESS) results)
  + List.length (filter (fun r => PipelineStatus_eqb (status r) FAILED) results)
  <= List.length results.
Proof.
  induction results as [|r rest IH]; simpl; [lia|].
  destruct (status r); simpl; lia.
Qed.

Lemma counts_partition (results : list PipelineResult) :
  List.length (filter (fun r => PipelineStatus_eqb (status r) SUCCESS) results)
  + List.length (filter (fun r => PipelineStatus_eqb (status r) FAILED) results)
  = List.length results
  <-> Forall (fun r => status r = SUCCESS \/ status r = FAILED) results.
Proof.
  induction results as [|r rest IH]; simpl.
  - split; [constructor | reflexivity].
  - pose proof (counts_le rest) as Hle. split.
    + intros H. destruct (status r) eqn:E; simpl in H;
        try (exfalso; lia);
        (constructor; [rewrite E; auto | apply IH; lia]).
    + intros H. inversion H as [|r' rest' Hr Hrest]; subst.
      apply IH in Hrest.
      destruct Hr as [E|E]; rewrite E; simpl; lia.
Qed.

(** X3. In every report the successful and the failed results together
    are at most the total, with equality exactly when every result is
    [SUCCESS] or [FAILED]; the total is the number of formatted steps of
    the three stages. *)
Theorem summary_counts_partition {py : Interpreter}
    (project_name now : string) (b t d : list PipelineResult) :
  let report := generate_report project_name now b t d in
  let s := summary report in
  successful_stages s + failed_stages s <= total_stages s
  /\ (successful_stages s + failed_stages s = total_stages s
      <-> Forall (fun r => status r = SUCCESS \/ status r = FAILED)
                 (b ++ t ++ d))
  /\ total_stages s
     = List.length (stages_build (stages report))
       + List.length (stages_test (stages report))
       + List.length (stages_deploy (stages report)).
Proof.
  cbv zeta. unfold generate_report.
  cbn [summary stages successful_stages failed_stages total_stages
       stages_build stages_test stages_deploy].
  split; [apply counts_le|]. split; [apply counts_partition|].
  rewrite !length_format_stage_results, !length_app. lia.
Qed.

(** ** The command line entry point *)

Lemma summary_status_cases {py : Interpreter}
    (project_name now : string) (b t d : list PipelineResult) :
  (summary_status (summary (generate_report project_name now b t d))
   = "SUCCESS"
   /\ filter (fun r => PipelineStatus_eqb (status r) FAILED) (b ++ t ++ d)
      = [])
  \/ (summary_status (summary (generate_report project_name now b t d))
      = "FAILED"
      /\ filter (fun r => PipelineStatus_eqb (status r) FAILED) (b ++ t ++ d)
         <> []).
Proof.
  unfold generate_report. cbn [summary summary_status].
  destruct (filter (fun r => PipelineStatus_eqb (status r) FAILED)
                   (b ++ t ++ d)).
  - left. split; reflexivity.
  - right. split; [reflexivity | discriminate].
Qed.

(** X5. The exit status [main] computes from a generated report is 0 when
    no result of the three lists is [FAILED], and 1 when one is. *)
Theorem main_exit_status_generate_report {py : Interpreter}
    (project_name now : string) (b t d : list PipelineResult) :
  let report := generate_report project_name now b t d in
  (main_exit_status report = 0%Z
   <-> ~ exists r, In r (b ++ t ++ d) /\ status r = FAILED)
  /\ (main_exit_status report = 1%Z
      <-> exists r, In r (b ++ t ++ d) /\ status r = FAILED).
Proof.
  cbv zeta. unfold main_exit_status.
  pose proof (filter_failed_nil (b ++ t ++ d)) as Hnil.
  destruct (summary_status_cases project_name now b t d)
    as [[-> Hf] | [-> Hf]]; cbn.
  - apply Hnil in Hf. split; split; intros H;
      try reflexivity; try assumption; try discriminate H.
    exfalso. now apply Hf.
  - split; split; intros H; try reflexivity; try discriminate H.
    + exfalso. apply Hf. now apply Hnil.
    + destruct (filter (fun r => PipelineStatus_eqb (status r) FAILED)
                       (b ++ t ++ d)) as [|r rest] eqn:E;
        [now contradiction Hf|].
      exists r.
      assert (Hin : In r (filter (fun r => PipelineStatus_eqb (status r) FAILED)
                                 (b ++ t ++ d)))
        by (rewrite E; now left).
      apply filter_In in Hin. destruct Hin as [Hin Hst].
      split; [assumption | now apply PipelineStatus_eqb_eq].
Qed.

Lemma status_value_failed (s : PipelineStatus) :
  String.eqb (PipelineStatus_value s) "failed" = PipelineStatus_eqb s FAILED.
Proof.
  now destruct s.
Qed.

Lemma flat_map_filter {A B : Type} (p : A -> bool) (h : A -> B)
    (xs : list A) :
  flat_map (fun x => if p x then [h x] else []) xs = map h (filter p xs).
Proof.
  induction xs as [|x xs IH]; simpl; [reflexivity|].
  destruct (p x); simpl; now rewrite IH.
Qed.

(** The lines printed for a formatted stage are the expected ones. *)
Lemma failed_lines_of_formatted (stage_name : string)
    (results : list PipelineResult) :
  flat_map
    (fun stage =>
       if String.eqb (fs_status stage) "failed"
       then [failed_step_line stage_name stage]
       else [])
    (format_stage_results results)
  = failed_lines_of stage_name results.
Proof.
  unfold format_stage_results, failed_lines_of.
  rewrite flat_map_filter.
  generalize (enumerate results) as ps.
  induction ps as [|[i r] ps IH]; simpl; [reflexivity|].
  rewrite status_value_failed.
  destruct (PipelineStatus_eqb (status r) FAILED); simpl; now rewrite IH.
Qed.

Lemma length_failed_lines_of (stage_name : string)
    (results : list PipelineResult) :
  List.length (failed_lines_of stage_name results)
  = List.length
      (filter (fun r => PipelineStatus_eqb (status r) FAILED) results).
Proof.
  unfold failed_lines_of, enumerate. rewrite length_map.
  generalize 0 as start.
  induction results as [|r rest IH]; intros start; simpl; [reflexivity|].
  destruct (PipelineStatus_eqb (status r) FAILED); simpl; now rewrite IH.
Qed.

(** X6. When a result is [FAILED], what [main] prints after the summary
    is the heading followed by one line per [FAILED] result, stage by
    stage in the order build, test, deploy, each with the position of the
    result in its stage and its exit code: as many lines as the count
    [failed_stages]. When no result is [FAILED], nothing is printed. *)
Theorem main_failed_stage_lines_generate_report {py : Interpreter}
    (project_name now : string) (b t d : list PipelineResult) :
  let report := generate_report project_name now b t d in
  let lines :=
    failed_lines_of "build" b ++ failed_lines_of "test" t
    ++ failed_lines_of "deploy" d in
  List.length lines = failed_stages (summary report)
  /\ main_failed_stage_lines report
     = match failed_stages (summary report) with
       | 0 => []
       | S _ => (newline ++ "Failed stages:")%string :: lines
       end.
Proof.
  cbv zeta. split.
  - unfold generate_report. cbn [summary failed_stages].
    rewrite !length_app, !length_failed_lines_of, !filter_failed_app,
      !length_app.
    reflexivity.
  - unfold main_failed_stage_lines.
    change (failed_stages (summary (generate_report project_name now b t d)))
      with (List.length
              (filter (fun r => PipelineStatus_eqb (status r) FAILED)
                      (b ++ t ++ d))).
    change (stages_build (stages (generate_report project_name now b t d)))
      with (format_stage_results b).
    change (stages_test (stages (generate_report project_name now b t d)))
      with (format_stage_results t).
    change (stages_deploy (stages (generate_report project_name now b t d)))
      with (format_stage_results d).
    destruct (summary_status_cases project_name now b t d)
      as [[Hs Hf] | [Hs Hf]]; rewrite Hs.
    + rewrite Hf. reflexivity.
    + destruct (filter (fun r => PipelineStatus_eqb (status r) FAILED)
                       (b ++ t ++ d)) as [|r rest];
        [now contradiction Hf|].
      cbn [List.length String.eqb Ascii.eqb Bool.eqb flat_map].
      rewrite !failed_lines_of_formatted, app_nil_r. reflexivity.
Qed.

(** ** The manual rules form *)

Lemma dict_lookup_set_other {V : Type} (key k : string) (v : V)
    (d : py_dict V) :
  String.eqb key k = false ->
  dict_lookup k (dict_set key v d) = dict_lookup k d.
Proof.
  intros Hk. induction d as [|[k' v'] d IH]; simpl.
  - now rewrite Hk.
  - destruct (String.eqb k' key) eqn:E; simpl.
    + apply String.eqb_eq in E. subst k'. now rewrite Hk.
    + now rewrite IH.
Qed.

(** Collecting the items of a stage leaves the other keys alone. *)
Lemma collect_items_other (stage_key k : string) (items : list RuleItem) :
  String.eqb stage_key k = false ->
  forall c c',
    collect_items stage_key items c = inr c' ->
    dict_lookup k c' = dict_lookup k c.
Proof.
  intros Hk. induction items as [|item rest IH]; intros c c' H; simpl in H.
  - now injection H as <-.
  - destruct (truthy_str (py_strip (item_command item))); [|now apply IH].
    destruct (dict_lookup stage_key c) as [[s|entries|vars]|];
      try discriminate H.
    destruct (item_timeout item) as [e|timeout]; [discriminate H|].
    apply IH in H. rewrite H. now apply dict_lookup_set_other.
Qed.

(** Under a key the dictionary does not have, only items with a blank
    command pass, and they change nothing. *)
Lemma collect_items_missing (stage_key : string) (items : list RuleItem)
    (c : py_dict config_value) :
  dict_lookup stage_key c = None ->
  (forall c', collect_items stage_key items c = inr c' ->
              c' = c
              /\ Forall (fun item =>
                           truthy_str (py_strip (item_command item)) = false)
                        items)
  /\ (Exists (fun item => truthy_str (py_strip (item_command item)) = true)
             items ->
      collect_items stage_key items c = inl (KeyError stage_key)).
Proof.
  intros Hmiss. induction items as [|item rest [IHok IHko]]; simpl.
  - split.
    + intros c' H. injection H as <-. split; [reflexivity | constructor].
    + intros H. inversion H.
  - destruct (truthy_str (py_strip (item_command item))) eqn:E.
    + rewrite Hmiss. split; [intros c' H; discriminate H | reflexivity].
    + split.
      * intros c' H. destruct (IHok c' H) as [-> Hall].
        split; [reflexivity | now constructor].
      * intros H. inversion H as [x l Hx | x l Hl]; subst.
        -- rewrite E in Hx. discriminate Hx.
        -- now apply IHko.
Qed.

Lemma collect_env_vars_other (k : string) (vars : list EnvVar) :
  String.eqb "environment_variables" k = false ->
  forall c c',
    collect_env_vars vars c = inr c' ->
    dict_lookup k c' = dict_lookup k c.
Proof.
  intros Hk. induction vars as [|var rest IH]; intros c c' H; simpl in H.
  - now injection H as <-.
  - destruct (truthy_str (py_strip (var_name var))); [|now apply IH].
    destruct (dict_lookup "environment_variables" c) as [[s|entries|env]|];
      try discriminate H.
    apply IH in H. rewrite H. now apply dict_lookup_set_other.
Qed.

(** The dictionary as it stands when the loop reaches the deploy tab:
    no key ["deploy_commands"], and no deployment command. *)
Lemma before_deploy_stage (form : RulesForm) (c : py_dict config_value) :
  collect_stages ["build"; "test"]
    (rule_widgets form)
    [("project_name", VStr (project_name_var form));
     ("working_directory", VStr (work_dir_var form));
     ("build_commands", VCommands []);
     ("test_commands", VCommands []);
     ("deployment_commands", VCommands []);
     ("environment_variables", VEnv []);
     ("custom_script", VStr (py_strip (custom_script_text form)))]
  = inr c ->
  dict_lookup "deploy_commands" c = None
  /\ dict_lookup "deployment_commands" c = Some (VCommands []).
Proof.
  cbn [collect_stages].
  destruct (dict_lookup "build" (rule_widgets form)) as [bs|];
    [|intros H; discriminate H].
  match goal with
  | |- context [collect_items ?k bs ?c0] =>
      destruct (collect_items k bs c0) as [e|c1] eqn:Hb
  end; [intros H; discriminate H|].
  destruct (dict_lookup "test" (rule_widgets form)) as [ts|];
    [|intros H; discriminate H].
  match goal with
  | |- context [collect_items ?k ts c1] =>
      destruct (collect_items k ts c1) as [e|c2] eqn:Ht
  end; [intros H; discriminate H|].
  intros H. injection H as <-.
  split.
  - rewrite (collect_items_other "test_commands" "deploy_commands" ts
               eq_refl _ _ Ht).
    rewrite (collect_items_other "build_commands" "deploy_commands" bs
               eq_refl _ _ Hb).
    reflexivity.
  - rewrite (collect_items_other "test_commands" "deployment_commands" ts
               eq_refl _ _ Ht).
    rewrite (collect_items_other "build_commands" "deployment_commands" bs
               eq_refl _ _ Hb).
    reflexivity.
Qed.

Lemma collect_stages_split (widgets : py_dict (list RuleItem))
    (c : py_dict config_value) :
  collect_stages ["build"; "test"; "deploy"] widgets c
  = match collect_stages ["build"; "test"] widgets c with
    | inl e => inl e
    | inr c' => collect_stages ["deploy"] widgets c'
    end.
Proof.
  cbn [collect_stages].
  destruct (dict_lookup "build" widgets) as [bs|]; [|reflexivity].
  destruct (collect_items _ bs c) as [e|c1]; [reflexivity|].
  destruct (dict_lookup "test" widgets) as [ts|]; [|reflexivity].
  destruct (collect_items _ ts c1) as [e|c2]; reflexivity.
Qed.

(** X7. A configuration built by [save_manual_rules] has no deployment
    command: its list ["deployment_commands"] is empty, and the function
    builds one only when every row of the deploy tab has a blank
    command. *)
Theorem save_manual_rules_no_deployment
    (form : RulesForm) (config : py_dict config_value)
    (Hsaved : save_manual_rules_config form = inr config) :
  dict_lookup "deployment_commands" config = Some (VCommands [])
  /\ dict_lookup "deploy_commands" config = None
  /\ forall items,
       dict_lookup "deploy" (rule_widgets form) = Some items ->
       Forall (fun item => truthy_str (py_strip (item_command item)) = false)
              items.
Proof.
  unfold save_manual_rules_config in Hsaved.
  rewrite collect_stages_split in Hsaved.
  match type of Hsaved with
  | context [collect_stages ["build"; "test"] ?w ?c0] =>
      destruct (collect_stages ["build"; "test"] w c0) as [e|c2] eqn:H2
  end; [discriminate Hsaved|].
  apply before_deploy_stage in H2. destruct H2 as [Hmiss Hdep].
  cbn [collect_stages] in Hsaved.
  destruct (dict_lookup "deploy" (rule_widgets form)) as [ds|] eqn:Hds;
    [|discriminate Hsaved].
  change ("deploy" ++ "_commands")%string with "deploy_commands" in Hsaved.
  destruct (collect_items "deploy_commands" ds c2) as [e|c3] eqn:H3;
    [discriminate Hsaved|].
  destruct (collect_items_missing "deploy_commands" ds c2 Hmiss) as [Hok _].
  destruct (Hok c3 H3) as [-> Hblank].
  split; [|split].
  - rewrite (collect_env_vars_other "deployment_commands" _ eq_refl _ _ Hsaved).
    exact Hdep.
  - rewrite (collect_env_vars_other "deploy_commands" _ eq_refl _ _ Hsaved).
    exact Hmiss.
  - intros items Hitems. injection Hitems as <-. exact Hblank.
Qed.

(** X8. When a row of the deploy tab has a command that is not blank,
    [save_manual_rules] raises before writing anything. *)
Theorem save_manual_rules_deploy_fails
    (form : RulesForm) (items : list RuleItem)
    (Hdeploy : dict_lookup "deploy" (rule_widgets form) = Some items)
    (Hcommand :
       Exists (fun item => truthy_str (py_strip (item_command item)) = true)
              items) :
  exists e, save_manual_rules_config form = inl e.
Proof.
  unfold save_manual_rules_config.
  rewrite collect_stages_split.
  match goal with
  | |- context [collect_stages ["build"; "test"] ?w ?c0] =>
      destruct (collect_stages ["build"; "test"] w c0) as [e|c2] eqn:H2
  end; [now exists e|].
  apply before_deploy_stage in H2. destruct H2 as [Hmiss _].
  cbn [collect_stages]. rewrite Hdeploy.
  change ("deploy" ++ "_commands")%string with "deploy_commands".
  destruct (collect_items_missing "deploy_commands" items c2 Hmiss) as [_ Hko].
  rewrite (Hko Hcommand). now exists (KeyError "deploy_commands").
Qed.

(** A form whose deploy row is blank is saved, with its build command and
    no deployment command. *)
Lemma save_manual_rules_blank_deploy :
  exists config,
    save_manual_rules_config (sample_form "  ") = inr config
    /\ dict_lookup "build_commands" config
       = Some (VCommands [{| entry_name := "custom_build_cmd";
                             entry_command := "make";
                             entry_timeout := 60%Z |}])
    /\ dict_lookup "deployment_commands" config = Some (VCommands [])
    /\ dict_lookup "deploy_commands" config = None
    /\ forall items,
         dict_lookup "deploy" (rule_widgets (sample_form "  ")) = Some items ->
         Forall (fun item => truthy_str (py_strip (item_command item)) = false)
                items.
Proof.
  eexists. split; [vm_compute; reflexivity|].
  split; [reflexivity|].
  apply (save_manual_rules_no_deployment (sample_form "  ")).
  reflexivity.
Defined.

(** A form with a deploy command is not saved: the key of the deploy
    stage is missing from the dictionary. *)
Lemma save_manual_rules_with_deploy :
  save_manual_rules_config (sample_form "scp app host:")
  = inl (KeyError "deploy_commands")
  /\ exists e, save_manual_rules_config (sample_form "scp app host:") = inl e.
Proof.
  split; [reflexivity|].
  apply (save_manual_rules_deploy_fails
           (sample_form "scp app host:")
           [{| item_name := "custom_deploy_cmd";
               item_command := "scp app host:";
               item_timeout := inr 300%Z |}]).
  - reflexivity.
  - constructor. reflexivity.
Defined.

(** ** Stage lists *)

Lemma not_failed_is_success (r : PipelineResult) :
  status r = SUCCESS \/ status r = FAILED ->
  PipelineStatus_eqb (status r) FAILED = false ->
  status r = SUCCESS.
Proof.
  intros [H|H] Hst; [assumption|]. rewrite H in Hst. discriminate Hst.
Qed.

Lemma until_failed_fail_fast (results : list PipelineResult) :
  Forall (fun r => status r = SUCCESS \/ status r = FAILED) results ->
  fail_fast (until_failed results).
Proof.
  intros Hall. split; [now apply until_failed_Forall|].
  induction Hall as [|r rest Hr Hrest IH]; cbn [until_failed].
  - constructor.
  - destruct (PipelineStatus_eqb (status r) FAILED) eqn:Hst.
    + constructor.
    + destruct (until_failed rest) as [|r' rest'] eqn:E.
      * constructor.
      * change (removelast (r :: r' :: rest'))
          with (r :: removelast (r' :: rest')).
        constructor; [now apply not_failed_is_success | exact IH].
Qed.

Lemma length_until_failed (results : list PipelineResult) :
  List.length (until_failed results) <= List.length results.
Proof.
  induction results as [|r rest IH]; cbn; [lia|].
  destruct (PipelineStatus_eqb (status r) FAILED); cbn; lia.
Qed.

Lemma fail_fast_one_failure (results : list PipelineResult) :
  fail_fast results ->
  List.length (filter (fun r => PipelineStatus_eqb (status r) FAILED) results)
  <= 1.
Proof.
  intros [_ Hinit].
  induction results as [|r rest IH]; [cbn; lia|].
  destruct rest as [|r' rest'].
  - cbn. destruct (PipelineStatus_eqb (status r) FAILED); cbn; lia.
  - change (removelast (r :: r' :: rest'))
      with (r :: removelast (r' :: rest')) in Hinit.
    inversion Hinit as [|x l Hr Hrest]; subst.
    cbn [filter]. rewrite Hr. cbn [PipelineStatus_eqb].
    apply IH. exact Hrest.
Qed.

Lemma clean_until_failed (results : list PipelineResult) :
  any_failed (until_failed results) = false ->
  until_failed results = results.
Proof.
  unfold any_failed.
  induction results as [|r rest IH]; cbn; [reflexivity|].
  destruct (PipelineStatus_eqb (status r) FAILED) eqn:Hst; cbn; rewrite Hst.
  - intros H. discriminate H.
  - cbn. intros H. now rewrite IH.
Qed.

Lemma clean_all_success (results : list PipelineResult) :
  Forall (fun r => status r = SUCCESS \/ status r = FAILED) results ->
  any_failed results = false ->
  Forall (fun r => status r = SUCCESS) results.
Proof.
  unfold any_failed.
  induction 1 as [|r rest Hr Hrest IH]; cbn; [constructor|].
  intros H. apply orb_false_iff in H. destruct H as [Hst Hno].
  constructor; [now apply not_failed_is_success | now apply IH].
Qed.

Lemma clean_no_failed (results : list PipelineResult) :
  any_failed results = false ->
  filter (fun r => PipelineStatus_eqb (status r) FAILED) results = [].
Proof.
  unfold any_failed.
  induction results as [|r rest IH]; cbn; [reflexivity|].
  intros H. apply orb_false_iff in H. destruct H as [Hst Hno].
  rewrite Hst. now apply IH.
Qed.

(** ** The executor, further *)

Section MoreExecutorProperties.

Context {os : OS} {py : Interpreter}.




(** X11. When the wait raises an exception that is not a timeout, the
    result is a failure with the exit code [-1], an empty output and the
    text of the exception; the process is neither killed nor drained. *)
Theorem run_command_wait_raises
    (command : string) (timeout : Z) (cwd : option string)
    (w w0 w1 w2 w3 : World) (t0 t1 : float) (p : Process) (e : exn)
    (Hstart : time_time w = (t0, w0))
    (Hlaunch : Popen command cwd w0 = (inr p, w1))
    (Hwait : communicate p (Some timeout) w1 = (inl e, w2))
    (Hclass : is_TimeoutExpired e = false)
    (Hend : time_time w2 = (t1, w3)) :
  run_command command timeout cwd w
  = (inr {| status := FAILED;
            duration := PrimFloat.sub t1 t0;
            output := "";
            error := Some (exn_str e);
            exit_code := (-1)%Z |},
     w3).
Proof.
  unfold run_command, bind, try_except, lift, ret, is_Exception.
  rewrite Hstart; cbn beta iota. rewrite Hlaunch; cbn beta iota.
  rewrite Hwait; cbn beta iota. rewrite Hclass.
  rewrite Hend. reflexivity.
Qed.

(** X12. When the wait times out and draining the pipes of the killed
    process raises, the result is a failure with the exit code [-1], an
    empty output and the text of that exception: the timeout is not
    reported. *)
Theorem run_command_drain_raises
    (command : string) (timeout : Z) (cwd : option string)
    (w w0 w1 w2 w3 w4 w5 : World) (t0 t1 : float) (p : Process)
    (e e' : exn)
    (Hstart : time_time w = (t0, w0))
    (Hlaunch : Popen command cwd w0 = (inr p, w1))
    (Hwait : communicate p (Some timeout) w1 = (inl e, w2))
    (Hclass : is_TimeoutExpired e = true)
    (Hkill : kill p w2 = (inr tt, w3))
    (Hdrain : communicate p None w3 = (inl e', w4))
    (Hend : time_time w4 = (t1, w5)) :
  run_command command timeout cwd w
  = (inr {| status := FAILED;
            duration := PrimFloat.sub t1 t0;
            output := "";
            error := Some (exn_str e');
            exit_code := (-1)%Z |},
     w5).
Proof.
  unfold run_command, bind, try_except, lift, ret, is_Exception.
  rewrite Hstart; cbn beta iota. rewrite Hlaunch; cbn beta iota.
  rewrite Hwait; cbn beta iota. rewrite Hclass.
  rewrite Hkill; cbn beta iota. rewrite Hdrain; cbn beta iota.
  rewrite Hend. reflexivity.
Qed.

(** What a stage returns, by its shape. *)
Lemma run_stage_shape (stage_name : string) (commands : list CmdConfig)
    (w : World) :
  exists results w',
    run_stage stage_name commands w = (inr results, w')
    /\ fail_fast results
    /\ List.length results <= List.length commands
    /\ (any_failed results = false ->
        List.length results = List.length commands).
Proof.
  destruct (run_stage_returns stage_name commands w)
    as (all & w_all & w' & _ & Hlen & Hsh & Hrun & _).
  exists (until_failed all), w'. split; [assumption|].
  split; [|split].
  - apply until_failed_fail_fast.
    eapply Forall_impl; [|exact Hsh]. apply command_result_status.
  - rewrite <- Hlen. apply length_until_failed.
  - intros Hclean. now rewrite (clean_until_failed all Hclean).
Qed.

(** X13. In the list a stage returns only the last result can be
    [FAILED]: every result before it is [SUCCESS], at most one result is
    [FAILED], and there are no more results than commands. *)
Theorem run_stage_only_last_fails (stage_name : string)
    (commands : list CmdConfig) (w : World) :
  exists results w',
    run_stage stage_name commands w = (inr results, w')
    /\ Forall (fun r => status r = SUCCESS) (removelast results)
    /\ List.length
         (filter (fun r => PipelineStatus_eqb (status r) FAILED) results)
       <= 1
    /\ List.length results <= List.length commands.
Proof.
  destruct (run_stage_shape stage_name commands w)
    as (results & w' & Hrun & Hff & Hlen & _).
  exists results, w'. split; [assumption|].
  split; [apply Hff|]. split; [now apply fail_fast_one_failure | assumption].
Qed.

Lemma fail_fast_nil : fail_fast [].
Proof.
  split; constructor.
Qed.

(** The three lists of a run, by their shape. *)
Lemma run_pipeline_stages_shape (config : Config) (w : World) :
  exists b t d w',
    run_pipeline_stages config w = (inr (b, t, d), w')
    /\ fail_fast b /\ fail_fast t /\ fail_fast d
    /\ ((any_failed b = true /\ t = [] /\ d = [])
        \/ (any_failed b = false
            /\ List.length b = List.length (build_commands config)
            /\ any_failed t = true /\ d = [])
        \/ (any_failed b = false
            /\ List.length b = List.length (build_commands config)
            /\ any_failed t = false
            /\ List.length t = List.length (test_commands config))).
Proof.
  unfold run_pipeline_stages.
  destruct (run_stage_shape "Build" (build_commands config) w)
    as (b & w1 & Hb & Fb & _ & Lb).
  rewrite (bind_returned _ _ _ _ _ Hb).
  destruct (any_failed b) eqn:Ab.
  - exists b, [], [], w1. split; [reflexivity|].
    split; [exact Fb|]. split; [exact fail_fast_nil|].
    split; [exact fail_fast_nil|].
    left. repeat split; auto.
  - destruct (run_stage_shape "Test" (test_commands config) w1)
      as (t & w2 & Ht & Ft & _ & Lt).
    rewrite (bind_returned _ _ _ _ _ Ht).
    destruct (any_failed t) eqn:At.
    + exists b, t, [], w2. split; [reflexivity|].
      split; [exact Fb|]. split; [exact Ft|].
      split; [exact fail_fast_nil|].
      right. left. repeat split; auto.
    + destruct (run_stage_shape "Deploy" (deployment_commands config) w2)
        as (d & w3 & Hd & Fd & _ & _).
      rewrite (bind_returned _ _ _ _ _ Hd).
      exists b, t, d, w3. split; [reflexivity|].
      split; [exact Fb|]. split; [exact Ft|]. split; [exact Fd|].
      right. right. repeat split; auto.
Qed.

(** The report [run_pipeline] returns is generated from its three
    lists. *)
Lemma run_pipeline_report (config : Config) (w w'' : World)
    (report : Report) :
  run_pipeline config w = (inr report, w'') ->
  exists b t d w',
    run_pipeline_stages config (snd (time_time w)) = (inr (b, t, d), w')
    /\ report = generate_report (project_name config)
                                (fst (time_strftime w')) b t d.
Proof.
  destruct (run_pipeline_stages_shape config (snd (time_time w)))
    as (b & t & d & w' & Hrun & _).
  intros H. exists b, t, d, w'. split; [assumption|].
  revert H. unfold run_pipeline, save_report.
  unfold bind at 1. unfold lift at 1.
  destruct (time_time w) as [t0 w0]. cbn [snd] in Hrun.
  rewrite (bind_returned _ _ _ _ _ Hrun).
  unfold bind, try_except, lift, ret.
  destruct (time_strftime w') as [now w1]. cbn [fst].
  destruct (json_dump_file _ _ w1) as [[e|[]] w2].
  - destruct (is_IOError e).
    + destruct (time_time w2). intros H. now injection H as <- _.
    + intros H. discriminate H.
  - destruct (time_time w2). intros H. now injection H as <- _.
Qed.

(** X14. A report returned by [run_pipeline] counts at most one failed
    result, and its successful and failed results add up to the total. *)
Theorem run_pipeline_one_failure (config : Config) (w w'' : World)
    (report : Report)
    (Hrun : run_pipeline config w = (inr report, w'')) :
  failed_stages (summary report) <= 1
  /\ successful_stages (summary report) + failed_stages (summary report)
     = total_stages (summary report).
Proof.
  destruct (run_pipeline_report config w w'' report Hrun)
    as (b & t & d & w' & Hstages & ->).
  destruct (run_pipeline_stages_shape config (snd (time_time w)))
    as (b' & t' & d' & w1 & Hshape & Fb & Ft & Fd & Hcases).
  rewrite Hstages in Hshape. injection Hshape as <- <- <- <-.
  unfold generate_report.
  cbn [summary failed_stages successful_stages total_stages].
  split.
  - rewrite !filter_failed_app, !length_app.
    pose proof (fail_fast_one_failure b Fb) as Hb.
    pose proof (fail_fast_one_failure t Ft) as Ht.
    pose proof (fail_fast_one_failure d Fd) as Hd.
    destruct Hcases as [(_ & -> & ->) | [(Ab & _ & _ & ->) | (Ab & _ & At & _)]].
    + cbn. lia.
    + rewrite (clean_no_failed b Ab). cbn. lia.
    + rewrite (clean_no_failed b Ab), (clean_no_failed t At). cbn. lia.
  - apply counts_partition.
    repeat (apply Forall_app; split); [apply Fb | apply Ft | apply Fd].
Qed.

(** X15. When the report cannot be written, [run_pipeline] still returns
    the report it generated if the failure is an [IOError], and raises the
    exception otherwise. *)
Theorem run_pipeline_write_failure (config : Config)
    (w w1 w2 w3 : World) (b t d : list PipelineResult)
    (now : string) (e : exn)
    (Hstages :
       run_pipeline_stages config (snd (time_time w)) = (inr (b, t, d), w1))
    (Hnow : time_strftime w1 = (now, w2))
    (Hwrite :
       json_dump_file "ci_report.json"
                      (generate_report (project_name config) now b t d) w2
       = (inl e, w3)) :
  run_pipeline config w
  = if is_IOError e
    then (inr (generate_report (project_name config) now b t d),
          snd (time_time w3))
    else (inl e, w3).
Proof.
  unfold run_pipeline, save_report.
  unfold bind at 1. unfold lift at 1.
  destruct (time_time w) as [t0 w0]. cbn [snd] in Hstages.
  rewrite (bind_returned _ _ _ _ _ Hstages).
  unfold bind, try_except, lift, ret.
  rewrite Hnow, Hwrite.
  destruct (is_IOError e); [|reflexivity].
  now destruct (time_time w3).
Qed.

(** X16. A stage is reached only over clean stages: when the Deploy list
    is not empty, every Build and Test result is [SUCCESS] and both
    stages ran all their commands; when the Test list is not empty, so
    did Build. *)
Theorem run_pipeline_stage_reached (config : Config) (w : World) :
  exists b t d w',
    run_pipeline_stages config w = (inr (b, t, d), w')
    /\ (d <> [] ->
        Forall (fun r => status r = SUCCESS) b
        /\ Forall (fun r => status r = SUCCESS) t
        /\ List.length b = List.length (build_commands config)
        /\ List.length t = List.length (test_commands config))
    /\ (t <> [] ->
        Forall (fun r => status r = SUCCESS) b
        /\ List.length b = List.length (build_commands config)).
Proof.
  destruct (run_pipeline_stages_shape config w)
    as (b & t & d & w' & Hrun & Fb & Ft & _ & Hcases).
  exists b, t, d, w'. split; [assumption|].
  destruct Fb as [Sb _]. destruct Ft as [St _].
  destruct Hcases
    as [(_ & -> & ->) | [(Ab & Lb & _ & ->) | (Ab & Lb & At & Lt)]].
  - split; intros H; now contradiction H.
  - split; [intros H; now contradiction H|].
    intros _. split; [now apply clean_all_success | assumption].
  - split; intros _; repeat split;
      try assumption; now apply clean_all_success.
Qed.

(** X17. A stage without commands passes: with an empty build list the
    Build list is empty and the Test stage runs from the initial world,
    followed by the Deploy stage when no test result is [FAILED]. With no
    command at all nothing runs, and the report counts no result, is
    ["SUCCESS"], and gives the exit status 0. *)
Theorem run_pipeline_empty_build
    (name now : string) (tests deploys : list CmdConfig) (w : World) :
  let config := {| project_name := name;
                   build_commands := [];
                   test_commands := tests;
                   deployment_commands := deploys |} in
  (exists t d w1 w',
      run_pipeline_stages config w = (inr ([], t, d), w')
      /\ run_stage "Test" tests w = (inr t, w1)
      /\ (any_failed t = true -> d = [] /\ w' = w1)
      /\ (any_failed t = false ->
          run_stage "Deploy" deploys w1 = (inr d, w')))
  /\ (tests = [] -> deploys = [] ->
      run_pipeline_stages config w = (inr ([], [], []), w)
      /\ summary (generate_report name now [] [] [])
         = {| total_stages := 0;
              successful_stages := 0;
              failed_stages := 0;
              total_duration := 0%float;
              summary_status := "SUCCESS" |}
      /\ main_exit_status (generate_report name now [] [] []) = 0%Z).
Proof.
  cbv zeta. split.
  - unfold run_pipeline_stages.
    cbn [build_commands test_commands deployment_commands].
    rewrite (bind_returned (run_stage "Build" []) _ w w [] eq_refl).
    cbn [any_failed existsb].
    destruct (run_stage_shape "Test" tests w) as (t & w1 & Ht & _).
    rewrite (bind_returned _ _ _ _ _ Ht).
    destruct (any_failed t) eqn:At.
    + exists t, [], w1, w1.
      split; [reflexivity|]. split; [assumption|].
      split; [now intros _ | congruence].
    + destruct (run_stage_shape "Deploy" deploys w1) as (d & w2 & Hd & _).
      rewrite (bind_returned _ _ _ _ _ Hd).
      exists t, d, w1, w2.
      split; [reflexivity|]. split; [assumption|].
      split; [congruence | now intros _].
  - intros -> ->. repeat split.
Qed.

End MoreExecutorProperties.

(** ** Further runs on the scripted hosts *)


(** A command whose output is not text. *)
Lemma run_command_wait_raises_on_image :
  run_command (os := faulty_os) "cat image.png" 30 None 5%Z
  = (inr {| status := FAILED;
            duration := 0%float;
            output := "";
            error := Some (exn_str undecodable);
            exit_code := (-1)%Z |},
     5%Z).
Proof.
  exact (run_command_wait_raises (os := faulty_os)
           "cat image.png" 30 None 5%Z 5%Z 5%Z 5%Z 5%Z
           (scripted_clock 5) (scripted_clock 5) "cat image.png" undecodable
           eq_refl eq_refl eq_refl eq_refl eq_refl).
Defined.

(** A command that times out and whose pipes cannot be decoded. *)
Lemma run_command_drain_raises_on_sleep :
  run_command (os := faulty_os) "sleep 10" 1 None 5%Z
  = (inr {| status := FAILED;
            duration := 1%float;
            output := "";
            error := Some (exn_str undecodable);
            exit_code := (-1)%Z |},
     6%Z).
Proof.
  exact (run_command_drain_raises (os := faulty_os)
           "sleep 10" 1 None 5%Z 5%Z 5%Z 6%Z 6%Z 6%Z 6%Z
           (scripted_clock 5) (scripted_clock 6) "sleep 10"
           (mkExn TimeoutExpired "timed out") undecodable
           eq_refl eq_refl eq_refl eq_refl eq_refl eq_refl eq_refl).
Defined.

(** A run whose second build command fails. *)
Lemma run_pipeline_one_failure_on_build :
  exists report w',
    run_pipeline (py := cpython_311) failing_build_config 0%Z
    = (inr report, w')
    /\ total_stages (summary report) = 2
    /\ failed_stages (summary report) <= 1
    /\ successful_stages (summary report) + failed_stages (summary report)
       = total_stages (summary report).
Proof.
  eexists; eexists. split; [vm_compute; reflexivity|].
  split; [reflexivity|].
  refine (run_pipeline_one_failure (os := scripted_os) (py := cpython_311)
            failing_build_config 0%Z 0%Z _ _).
  vm_compute. reflexivity.
Defined.

(** A run on the host where the report cannot be written. *)
Lemma run_pipeline_write_failure_on_faulty_host :
  exists report,
    run_pipeline (os := faulty_os) (py := cpython_312)
                 sleeping_build_config 0%Z
    = (inr report, 1%Z)
    /\ summary_status (summary report) = "FAILED"
    /\ total_stages (summary report) = 1.
Proof.
  eexists. split.
  - etransitivity.
    + refine (run_pipeline_write_failure (os := faulty_os)
                (py := cpython_312)
                sleeping_build_config 0%Z 1%Z 1%Z 1%Z _ _ _
                "2024-01-01 00:00:00"
                (mkExn IOError
                       "[Errno 13] Permission denied: 'ci_report.json'")
                _ _ _);
        vm_compute; reflexivity.
    + vm_compute. reflexivity.
  - split; reflexivity.
Defined.
